(** * Streaming speech-recognition client: frame codec and result tracker

    A shallow embedding of [src/core/voice/doubao_stream_voice_extractor.py]:
    the binary frame header ([generate_header], [generate_before_payload]),
    the response decoder ([parse_response]), the batch segment sizes of
    [AsrWsClient.execute] and the live path [AsrWsClient.process_chunk]
    with its incremental result tracker.

    Python values are modelled by the type [pyval], exceptions by the
    error type [result]; the libraries the module calls (gzip, json, the
    UTF-8 codec, [str]) are the fields of the class [Externals]. *)

From Stdlib Require Import ZArith List String Ascii Bool Lia QArith Sorted.
Import ListNotations.
Open Scope string_scope.
Open Scope list_scope.
Open Scope Z_scope.

Set Warnings "-register-all".

(** ** Python exceptions and values *)

Inductive exn_class : Type :=
| IndexError | ValueError | OverflowError | TypeError | KeyError
| AttributeError | UnicodeDecodeError | JSONDecodeError | BadGzipFile
| ConnectionClosed | OSError | Exception_.

(** An exception object: its class and the text [str(e)] gives. *)
Record exn : Type := mkExn { exn_cls : exn_class; exn_str : string }.

Inductive result (A : Type) : Type :=
| Ok (a : A)
| Raise (e : exn).
Arguments Ok {A} a.
Arguments Raise {A} e.

Definition rbind {A B : Type} (m : result A) (k : A -> result B) : result B :=
  match m with
  | Ok a => k a
  | Raise e => Raise e
  end.

Declare Scope result_scope.
Delimit Scope result_scope with result.
Notation "x <- m ;; k" := (rbind m (fun x => k))
  (at level 61, m at next level, right associativity) : result_scope.
Notation "' p <- m ;; k" := (rbind m (fun x => let p := x in k))
  (at level 61, p pattern, m at next level, right associativity) : result_scope.

(** [bytes] and [bytearray]: a list of integers in [0, 256). *)
Definition bytes : Type := list Z.

(** The values [json.loads] can return, and [bytes]. A JSON number with a
    fraction or an exponent is a [PFloat]; [PDict] keeps the insertion
    order of the keys, as a Python dict does. *)
Inductive pyval : Type :=
| PNone
| PBool (b : bool)
| PInt (z : Z)
| PFloat (q : Q)
| PStr (s : string)
| PBytes (b : bytes)
| PList (l : list pyval)
| PDict (d : list (string * pyval)).

(** [d[k]] on a dict, as an option. *)
Fixpoint dict_lookup (k : string) (d : list (string * pyval)) : option pyval :=
  match d with
  | [] => None
  | (k', v) :: d' => if String.eqb k k' then Some v else dict_lookup k d'
  end.

(** The numeric value of a bool, an int or a float, for [==]. *)
Definition py_num (v : pyval) : option Q :=
  match v with
  | PBool b => Some (inject_Z (if b then 1 else 0))
  | PInt z => Some (inject_Z z)
  | PFloat q => Some q
  | _ => None
  end.

Fixpoint bytes_eqb (a b : bytes) : bool :=
  match a, b with
  | [], [] => true
  | x :: a', y :: b' => (x =? y) && bytes_eqb a' b'
  | _, _ => false
  end.

(** Python's [==] on these values: numbers compare by value across
    bool, int and float; lists elementwise; dicts as sets of items. *)
Fixpoint py_eq (a b : pyval) {struct a} : bool :=
  match a, b with
  | PNone, PNone => true
  | PStr s, PStr t => String.eqb s t
  | PBytes x, PBytes y => bytes_eqb x y
  | PList l, PList m =>
      (fix all2 (l : list pyval) (m : list pyval) {struct l} : bool :=
         match l, m with
         | [], [] => true
         | x :: l', y :: m' => py_eq x y && all2 l' m'
         | _, _ => false
         end) l m
  | PDict d, PDict e =>
      (List.length d =? List.length e)%nat &&
      (fix items (d : list (string * pyval)) {struct d} : bool :=
         match d with
         | [] => true
         | (k, v) :: d' =>
             match dict_lookup k e with
             | Some w => py_eq v w
             | None => false
             end && items d'
         end) d
  | (PBool _ | PInt _ | PFloat _), (PBool _ | PInt _ | PFloat _) =>
      match py_num a, py_num b with
      | Some x, Some y => Qeq_bool x y
      | _, _ => false
      end
  | _, _ => false
  end.

(** [x in l] for a list [l]. *)
Definition py_in_list (x : pyval) (l : list pyval) : bool :=
  existsb (fun y => py_eq x y) l.

(** Truth value of [v] in an [if] or an [and]. *)
Definition py_truthy (v : pyval) : bool :=
  match v with
  | PNone => false
  | PBool b => b
  | PInt z => negb (z =? 0)
  | PFloat q => negb (Qeq_bool q 0)
  | PStr s => negb (String.eqb s EmptyString)
  | PBytes b => match b with [] => false | _ => true end
  | PList l => match l with [] => false | _ => true end
  | PDict d => match d with [] => false | _ => true end
  end.

(** ** Integers on the wire *)

(** [int.from_bytes(b, "big", signed=False)]. *)
Definition from_bytes_unsigned (b : bytes) : Z :=
  fold_left (fun acc x => acc * 256 + x) b 0.

(** [int.from_bytes(b, "big", signed=True)]: two's complement on the
    width of [b]; the empty slice is 0. *)
Definition from_bytes_signed (b : bytes) : Z :=
  let u := from_bytes_unsigned b in
  let w := 8 * Z.of_nat (List.length b) in
  if (0 <? w) && Z.testbit u (w - 1) then u - 2 ^ w else u.

Definition be32 (u : Z) : bytes :=
  [Z.land (Z.shiftr u 24) 255; Z.land (Z.shiftr u 16) 255;
   Z.land (Z.shiftr u 8) 255; Z.land u 255].

Definition int_too_big : exn := mkExn OverflowError "int too big to convert".

(** [n.to_bytes(4, "big", signed=True)]. *)
Definition to_bytes4_signed (n : Z) : result bytes :=
  if (- 2 ^ 31 <=? n) && (n <? 2 ^ 31)
  then Ok (be32 (n mod 2 ^ 32))
  else Raise int_too_big.

(** [n.to_bytes(4, "big")], for the length of a payload. *)
Definition to_bytes4 (n : Z) : result bytes :=
  if n <? 0 then Raise (mkExn OverflowError "can't convert negative int to unsigned")
  else if n <? 2 ^ 32 then Ok (be32 n)
  else Raise int_too_big.

(** ** Protocol constants *)

Definition PROTOCOL_VERSION : Z := 1.
Definition DEFAULT_HEADER_SIZE : Z := 1.

Definition FULL_CLIENT_REQUEST : Z := 1.
Definition AUDIO_ONLY_REQUEST : Z := 2.
Definition FULL_SERVER_RESPONSE : Z := 9.
Definition SERVER_ACK : Z := 11.
Definition SERVER_ERROR_RESPONSE : Z := 15.

Definition NO_SEQUENCE : Z := 0.
Definition POS_SEQUENCE : Z := 1.
Definition NEG_SEQUENCE : Z := 2.
Definition NEG_WITH_SEQUENCE : Z := 3.
Definition NEG_SEQUENCE_1 : Z := 3.

Definition NO_SERIALIZATION : Z := 0.
Definition JSON : Z := 1.

Definition NO_COMPRESSION : Z := 0.
Definition GZIP : Z := 1.

(** ** Frame header *)

(** [bytearray.append(x)]: a value outside [range(256)] is a ValueError. *)
Definition bytearray_append (h : bytes) (x : Z) : result bytes :=
  if (0 <=? x) && (x <? 256) then Ok (h ++ [x])
  else Raise (mkExn ValueError "byte must be in range(0, 256)").

Open Scope result_scope.

Definition generate_header (message_type message_type_specific_flags
                            serial_method compression_type reserved_data : Z)
  : result bytes :=
  let header := [] in
  let header_size := 1 in
  header <- bytearray_append header
              (Z.lor (Z.shiftl PROTOCOL_VERSION 4) header_size) ;;
  header <- bytearray_append header
              (Z.lor (Z.shiftl message_type 4) message_type_specific_flags) ;;
  header <- bytearray_append header
              (Z.lor (Z.shiftl serial_method 4) compression_type) ;;
  header <- bytearray_append header reserved_data ;;
  Ok header.

Definition generate_before_payload (sequence : Z) : result bytes :=
  let before_payload := [] in
  s <- to_bytes4_signed sequence ;;
  Ok (before_payload ++ s).

(** ** Libraries the module calls *)

(** The gzip, json and text codecs are not part of the module; it relies
    on [gzip.decompress] undoing [gzip.compress]. A failing call raises. *)
Class Externals : Type := {
  gzip_compress : bytes -> bytes;
  gzip_decompress : bytes -> result bytes;
  utf8_decode : bytes -> result string;
  utf8_encode : string -> bytes;
  json_loads : string -> result pyval;
  json_dumps : pyval -> string;
  py_str : pyval -> string;
  gzip_decompress_compress :
    forall b : bytes, gzip_decompress (gzip_compress b) = Ok b
}.

(** ** Response decoder *)

(** The dict [parse_response] returns: a key that may be missing is an
    option. *)
Record response : Type := mkResponse {
  is_last_package : bool;
  payload_sequence : option Z;
  seq : option Z;
  code : option Z;
  payload_msg : option pyval;
  payload_size : option Z
}.

(** [result[key] = v] for each key the decoder writes. *)
Definition set_is_last_package (v : bool) (r : response) : response :=
  mkResponse v (payload_sequence r) (seq r) (code r) (payload_msg r)
             (payload_size r).
Definition set_payload_sequence (v : Z) (r : response) : response :=
  mkResponse (is_last_package r) (Some v) (seq r) (code r) (payload_msg r)
             (payload_size r).
Definition set_seq (v : Z) (r : response) : response :=
  mkResponse (is_last_package r) (payload_sequence r) (Some v) (code r)
             (payload_msg r) (payload_size r).
Definition set_code (v : Z) (r : response) : response :=
  mkResponse (is_last_package r) (payload_sequence r) (seq r) (Some v)
             (payload_msg r) (payload_size r).
Definition set_payload_msg (v : pyval) (r : response) : response :=
  mkResponse (is_last_package r) (payload_sequence r) (seq r) (code r)
             (Some v) (payload_size r).
Definition set_payload_size (v : Z) (r : response) : response :=
  mkResponse (is_last_package r) (payload_sequence r) (seq r) (code r)
             (payload_msg r) (Some v).

Definition index_out_of_range : exn := mkExn IndexError "index out of range".

(** [res[i]] on bytes. *)
Definition byte_at (res : bytes) (i : nat) : result Z :=
  match nth_error res i with
  | Some b => Ok b
  | None => Raise index_out_of_range
  end.

(** [res[i:j]], [res[i:]] and [res[:j]] for indices that are not negative. *)
Definition slice (res : bytes) (i j : nat) : bytes := firstn (j - i) (skipn i res).
Definition slice_from (res : bytes) (i : nat) : bytes := skipn i res.
Definition slice_to (res : bytes) (j : nat) : bytes := firstn j res.

(** [x & mask] used as a condition. *)
Definition bit_set (x mask : Z) : bool := negb (Z.land x mask =? 0).

Section Decoder.
Context {E : Externals}.

(** [gzip.decompress] when the header says GZIP (lines 119-120). *)
Definition decompress (message_compression : Z) (payload_msg : bytes)
  : result bytes :=
  if message_compression =? GZIP then gzip_decompress payload_msg
  else Ok payload_msg.

(** Lines 121-124: JSON, or text for any other serialization but
    NO_SERIALIZATION, which leaves the bytes. *)
Definition deserialize (serialization_method : Z) (payload_msg : bytes)
  : result pyval :=
  if serialization_method =? JSON then
    s <- utf8_decode payload_msg ;;
    json_loads s
  else if negb (serialization_method =? NO_SERIALIZATION) then
    s <- utf8_decode payload_msg ;;
    Ok (PStr s)
  else Ok (PBytes payload_msg).

Definition parse_response (res : bytes) : result response :=
  b0 <- byte_at res 0 ;;
  let protocol_version := Z.shiftr b0 4 in
  let header_size := Z.land b0 15 in
  b1 <- byte_at res 1 ;;
  let message_type := Z.shiftr b1 4 in
  let message_type_specific_flags := Z.land b1 15 in
  b2 <- byte_at res 2 ;;
  let serialization_method := Z.shiftr b2 4 in
  let message_compression := Z.land b2 15 in
  reserved <- byte_at res 3 ;;
  let header_extensions := slice res 4 (Z.to_nat (header_size * 4)) in
  let payload := slice_from res (Z.to_nat (header_size * 4)) in
  let result := mkResponse false None None None None None in
  (* receive frame with sequence *)
  let '(result, payload) :=
    if bit_set message_type_specific_flags 1 then
      let sq := from_bytes_signed (slice_to payload 4) in
      (set_payload_sequence sq result, slice_from payload 4)
    else (result, payload) in
  (* receive last package *)
  let result :=
    if bit_set message_type_specific_flags 2
    then set_is_last_package true result
    else result in
  let '(result, payload_msg, payload_size) :=
    if message_type =? FULL_SERVER_RESPONSE then
      (result, Some (slice_from payload 4),
       from_bytes_signed (slice_to payload 4))
    else if message_type =? SERVER_ACK then
      let sq := from_bytes_signed (slice_to payload 4) in
      let result := set_seq sq result in
      if 8 <=? Z.of_nat (List.length payload) then
        (result, Some (slice_from payload 8),
         from_bytes_unsigned (slice payload 4 8))
      else (result, None, 0)
    else if message_type =? SERVER_ERROR_RESPONSE then
      let c := from_bytes_unsigned (slice_to payload 4) in
      (set_code c result, Some (slice_from payload 8),
       from_bytes_unsigned (slice payload 4 8))
    else (result, None, 0) in
  match payload_msg with
  | None => Ok result
  | Some payload_msg =>
      payload_msg <- decompress message_compression payload_msg ;;
      payload_msg <- deserialize serialization_method payload_msg ;;
      Ok (set_payload_size payload_size (set_payload_msg payload_msg result))
  end.

End Decoder.

(** ** Frame assembly *)

(** What every sender of the module does after [generate_header]: append
    [generate_before_payload(sequence)], the length of the payload on 4
    bytes and the payload. *)
Definition extend_frame (header : bytes) (sequence : Z) (payload_bytes : bytes)
  : result bytes :=
  before_payload <- generate_before_payload sequence ;;
  size <- to_bytes4 (Z.of_nat (List.length payload_bytes)) ;;
  Ok (header ++ before_payload ++ size ++ payload_bytes).

(** A frame for any header fields: [generate_header] then [extend_frame]. *)
Definition encode_frame (message_type message_type_specific_flags
                         serial_method compression_type : Z)
           (sequence : Z) (payload_bytes : bytes) : result bytes :=
  header <- generate_header message_type message_type_specific_flags
              serial_method compression_type 0 ;;
  extend_frame header sequence payload_bytes.


(** ** The client object *)

(** The keyword arguments of [AsrWsClient.__init__] that the modelled
    methods read. *)
Record config : Type := mkConfig {
  seg_duration : Z;
  uid : string;
  format : string;
  rate : Z;
  bits : Z;
  channel : Z;
  codec : string;
  mp3_seg_size : Z
}.

(** The defaults of [kwargs.get]. *)
Definition default_config : config :=
  mkConfig 100 "test" "pcm" 16000 16 1 "raw" 1000.

Inductive websocket : Type := WebSocket.

(** An attribute that [process_chunk] creates on first use is an option:
    [hasattr(self, '_ws')] is [_ws <> None]. *)
Record AsrWsClient : Type := mkClient {
  cfg : config;
  success_code : Z;
  _last_text : pyval;
  _last_sequence : Z;
  _accumulated_text : pyval;
  _last_words : list pyval;
  _sequence : option Z;
  _is_first_chunk : option bool;
  _reqid : option string;
  _ws : option websocket
}.

(** [AsrWsClient.__init__]. *)
Definition AsrWsClient_init (kwargs : config) : AsrWsClient :=
  mkClient kwargs 1000 (PStr EmptyString) 0 (PStr EmptyString) [] None None
           None None.

Definition set_last_text (v : pyval) (c : AsrWsClient) : AsrWsClient :=
  mkClient (cfg c) (success_code c) v (_last_sequence c) (_accumulated_text c)
           (_last_words c) (_sequence c) (_is_first_chunk c) (_reqid c) (_ws c).
Definition set_last_sequence (v : Z) (c : AsrWsClient) : AsrWsClient :=
  mkClient (cfg c) (success_code c) (_last_text c) v (_accumulated_text c)
           (_last_words c) (_sequence c) (_is_first_chunk c) (_reqid c) (_ws c).
Definition set_accumulated_text (v : pyval) (c : AsrWsClient) : AsrWsClient :=
  mkClient (cfg c) (success_code c) (_last_text c) (_last_sequence c) v
           (_last_words c) (_sequence c) (_is_first_chunk c) (_reqid c) (_ws c).
Definition set_last_words (v : list pyval) (c : AsrWsClient) : AsrWsClient :=
  mkClient (cfg c) (success_code c) (_last_text c) (_last_sequence c)
           (_accumulated_text c) v (_sequence c) (_is_first_chunk c)
           (_reqid c) (_ws c).
Definition set_sequence (v : Z) (c : AsrWsClient) : AsrWsClient :=
  mkClient (cfg c) (success_code c) (_last_text c) (_last_sequence c)
           (_accumulated_text c) (_last_words c) (Some v) (_is_first_chunk c)
           (_reqid c) (_ws c).
Definition set_is_first_chunk (v : bool) (c : AsrWsClient) : AsrWsClient :=
  mkClient (cfg c) (success_code c) (_last_text c) (_last_sequence c)
           (_accumulated_text c) (_last_words c) (_sequence c) (Some v)
           (_reqid c) (_ws c).
Definition set_reqid (v : string) (c : AsrWsClient) : AsrWsClient :=
  mkClient (cfg c) (success_code c) (_last_text c) (_last_sequence c)
           (_accumulated_text c) (_last_words c) (_sequence c)
           (_is_first_chunk c) (Some v) (_ws c).
Definition set_ws (v : websocket) (c : AsrWsClient) : AsrWsClient :=
  mkClient (cfg c) (success_code c) (_last_text c) (_last_sequence c)
           (_accumulated_text c) (_last_words c) (_sequence c)
           (_is_first_chunk c) (_reqid c) (Some v).

Definition construct_request (self : AsrWsClient) (reqid : string) : pyval :=
  PDict
    [("user", PDict [("uid", PStr (uid (cfg self)))]);
     ("audio",
      PDict [("format", PStr (format (cfg self)));
             ("sample_rate", PInt (rate (cfg self)));
             ("bits", PInt (bits (cfg self)));
             ("channel", PInt (channel (cfg self)));
             ("codec", PStr (codec (cfg self)))]);
     ("request",
      PDict [("model_name", PStr "bigmodel");
             ("enable_punc", PBool true);
             ("enable_itn", PBool true);
             ("enable_timestamp", PBool true);
             ("enable_vad", PBool true);
             ("vad_pause_time", PInt 500);
             ("vad_max_duration", PInt 60000);
             ("vad_max_sentence_silence", PInt 800)])].

(** ** Batch mode: segment sizes of [execute] *)

(** [int(x / d)] for integers: [/] is exact below 2^53 and [int]
    truncates toward zero. *)
Definition int_div (x d : Z) : Z := Z.quot x d.

(** [nchannels, sampwidth, framerate] as [read_wav_info] returns them. *)
Record wav_info : Type := mkWavInfo {
  nchannels : Z;
  sampwidth : Z;
  framerate : Z
}.

(** The [segment_size] that [execute] hands to [segment_data_processor]
    when there is an [audio_path], for each format; [wav] is what
    [read_wav_info] gives on the file. *)
Definition execute_segment_size (self : AsrWsClient) (wav : result wav_info)
  : result Z :=
  if String.eqb (format (cfg self)) "mp3" then
    Ok (mp3_seg_size (cfg self))
  else if String.eqb (format (cfg self)) "wav" then
    w <- wav ;;
    let size_per_sec := nchannels w * sampwidth w * framerate w in
    Ok (int_div (size_per_sec * seg_duration (cfg self)) 1000)
  else if String.eqb (format (cfg self)) "pcm" then
    Ok (int_div (rate (cfg self) * 2 * channel (cfg self)
                 * seg_duration (cfg self)) 500)
  else Raise (mkExn Exception_ "Unsupported format").

(** The size the batch pacer is specified to use for raw PCM. *)
Definition spec_pcm_segment_size (sample_rate bytes_per_sample channel_count
                                  segment_duration_ms : Z) : Z :=
  sample_rate * bytes_per_sample * channel_count * segment_duration_ms / 1000.

(** ** Operations on Python values used by [process_chunk] *)

Fixpoint is_prefix (p s : string) : bool :=
  match p, s with
  | EmptyString, _ => true
  | String a p', String b s' => Ascii.eqb a b && is_prefix p' s'
  | String _ _, EmptyString => false
  end.

(** [p in s] for two strings. *)
Fixpoint is_substring (p s : string) : bool :=
  is_prefix p s ||
  match s with
  | EmptyString => false
  | String _ s' => is_substring p s'
  end.

Definition type_error (m : string) : exn := mkExn TypeError m.

(** [k in v] for a string [k]. *)
Definition py_contains (k : string) (v : pyval) : result bool :=
  match v with
  | PDict d => Ok (match dict_lookup k d with Some _ => true | None => false end)
  | PList l => Ok (py_in_list (PStr k) l)
  | PStr s => Ok (is_substring k s)
  | PBytes _ => Raise (type_error "a bytes-like object is required, not 'str'")
  | _ => Raise (type_error "argument is not iterable")
  end.

(** [v[k]] for a string [k]. *)
Definition py_getitem (v : pyval) (k : string) : result pyval :=
  match v with
  | PDict d =>
      match dict_lookup k d with
      | Some x => Ok x
      | None => Raise (mkExn KeyError ("'" ++ k ++ "'")%string)
      end
  | PList _ => Raise (type_error "list indices must be integers or slices, not str")
  | PStr _ => Raise (type_error "string indices must be integers, not 'str'")
  | PBytes _ => Raise (type_error "byte indices must be integers or slices, not str")
  | _ => Raise (type_error "object is not subscriptable")
  end.

(** [v.get(k, default)]: only a dict has the method. *)
Definition py_get (v : pyval) (k : string) (default : pyval) : result pyval :=
  match v with
  | PDict d =>
      Ok (match dict_lookup k d with Some x => x | None => default end)
  | _ => Raise (mkExn AttributeError "object has no attribute 'get'")
  end.

(** The characters of a string, one string each. *)
Fixpoint str_chars (s : string) : list pyval :=
  match s with
  | EmptyString => []
  | String a s' => PStr (String a EmptyString) :: str_chars s'
  end.

(** The elements a [for] loop over [v] visits. *)
Definition py_iter (v : pyval) : result (list pyval) :=
  match v with
  | PList l => Ok l
  | PDict d => Ok (map (fun kv => PStr (fst kv)) d)
  | PStr s => Ok (str_chars s)
  | PBytes b => Ok (map PInt b)
  | _ => Raise (type_error "object is not iterable")
  end.

(** [''.join(l)]: every item must be a str. *)
Fixpoint str_join (l : list pyval) : result string :=
  match l with
  | [] => Ok EmptyString
  | PStr s :: l' => t <- str_join l' ;; Ok (s ++ t)%string
  | _ :: _ => Raise (type_error "sequence item: expected str instance")
  end.

(** [[word['text'] for word in words]]. *)
Fixpoint word_texts (words : list pyval) : result (list pyval) :=
  match words with
  | [] => Ok []
  | word :: words' =>
      t <- py_getitem word "text" ;;
      ts <- word_texts words' ;;
      Ok (t :: ts)
  end.

(** Lines 450-454: the texts of the words of every utterance, in order. *)
Fixpoint extend_words (current_words : list pyval) (utterances : list pyval)
  : result (list pyval) :=
  match utterances with
  | [] => Ok current_words
  | utterance :: utterances' =>
      has_words <- py_contains "words" utterance ;;
      if has_words then
        ws <- py_getitem utterance "words" ;;
        ws <- py_iter ws ;;
        ts <- word_texts ws ;;
        extend_words (current_words ++ ts) utterances'
      else extend_words current_words utterances'
  end.

(** Lines 459-462: the current words that are not in [last_words]. *)
Definition new_words_of (current_words last_words : list pyval) : list pyval :=
  filter (fun word => negb (py_in_list word last_words)) current_words.

(** ** The live path: [process_chunk] *)

(** What [ws.recv()] returns: a binary or a text message. *)
Inductive ws_message : Type :=
| Binary (b : bytes)
| Text (s : string).

(** Decoding what was received. On a str, [res[0] >> 4] is a TypeError
    (an IndexError when the str is empty). *)
Definition parse_message {E : Externals} (res : ws_message) : result response :=
  match res with
  | Binary b => parse_response b
  | Text EmptyString => Raise (mkExn IndexError "string index out of range")
  | Text _ =>
      Raise (type_error "unsupported operand type(s) for >>: 'str' and 'int'")
  end.

(** The outcome of each suspension point of one call, in program order:
    the request id drawn, the connection, and the send and receive of the
    initial request and of the audio frame. *)
Record call_io : Type := mkIO {
  io_uuid4 : string;
  io_connect : result websocket;
  io_init_send : result unit;
  io_init_recv : result ws_message;
  io_send : result unit;
  io_recv : result ws_message
}.

(** The client object and the frames handed to [ws.send] so far. *)
Record machine : Type := mkMachine {
  self : AsrWsClient;
  sent : list bytes
}.

(** State and exceptions: an exception leaves the mutations made before
    it in place. *)
Definition M (A : Type) : Type := machine -> result A * machine.

Definition ret {A : Type} (a : A) : M A := fun m => (Ok a, m).
Definition raise {A : Type} (e : exn) : M A := fun m => (Raise e, m).
Definition bind {A B : Type} (c : M A) (k : A -> M B) : M B :=
  fun m =>
    match c m with
    | (Ok a, m') => k a m'
    | (Raise e, m') => (Raise e, m')
    end.
Definition lift {A : Type} (r : result A) : M A := fun m => (r, m).
Definition get_self : M AsrWsClient := fun m => (Ok (self m), m).
Definition modify_self (f : AsrWsClient -> AsrWsClient) : M unit :=
  fun m => (Ok tt, mkMachine (f (self m)) (sent m)).
(** [try: c  except Exception as e: h e]. *)
Definition try_except {A : Type} (c : M A) (h : exn -> M A) : M A :=
  fun m =>
    match c m with
    | (Ok a, m') => (Ok a, m')
    | (Raise e, m') => h e m'
    end.
(** [await ws.send(frame)], with the outcome the socket gives. *)
Definition ws_send (frame : bytes) (outcome : result unit) : M unit :=
  fun m => (outcome, mkMachine (self m) (sent m ++ [frame])).

(** [wp c Q R m]: run from [m], [c] either returns a value and a state
    that satisfy [Q], or raises with a state that satisfies [R]. *)
Definition wp {A : Type} (c : M A) (Q : A -> machine -> Prop)
           (R : exn -> machine -> Prop) (m : machine) : Prop :=
  match c m with
  | (Ok a, m') => Q a m'
  | (Raise e, m') => R e m'
  end.

Declare Scope proc_scope.
Delimit Scope proc_scope with proc.
Notation "x <- c ;; k" := (bind c (fun x => k))
  (at level 61, c at next level, right associativity) : proc_scope.
Notation "c ;; k" := (bind c (fun _ => k))
  (at level 61, right associativity) : proc_scope.

(** [self._sequence]: an AttributeError before the first assignment. *)
Definition get_sequence : M Z :=
  fun m =>
    match _sequence (self m) with
    | Some n => (Ok n, m)
    | None => (Raise (mkExn AttributeError
                 "'AsrWsClient' object has no attribute '_sequence'"), m)
    end.

Definition is_none {A : Type} (o : option A) : bool :=
  match o with Some _ => false | None => true end.

(** [np.frombuffer(audio_bytes, dtype=np.int16).tobytes()] on a buffer of
    even length: the same bytes. *)
Definition int16_tobytes (audio_bytes : bytes) : bytes := audio_bytes.

(** The dict [process_chunk] returns; [error] is only in the dict built by
    the exception handler. *)
Record chunk_result : Type := mkChunkResult {
  error : option string;
  partial_text : string;
  is_final : pyval;
  full_text : pyval;
  sequence : Z
}.

Section Live.
Context {E : Externals}.
Local Open Scope proc_scope.

(** Lines 320-390: on the first call, or while there is no socket, open
    the connection and send the initial request. *)
Definition connect_and_init (io : call_io) : M unit :=
  self0 <- get_self ;;
  if is_none (_sequence self0) || is_none (_ws self0) then
    modify_self (set_sequence 1) ;;
    modify_self (set_is_first_chunk true) ;;
    modify_self (set_reqid (io_uuid4 io)) ;;
    try_except
      (ws <- lift (io_connect io) ;;
       modify_self (set_ws ws) ;;
       self1 <- get_self ;;
       let request_params := construct_request self1 (io_uuid4 io) in
       let payload_bytes := utf8_encode (json_dumps request_params) in
       let payload_bytes := gzip_compress payload_bytes in
       header <- lift (generate_header FULL_CLIENT_REQUEST POS_SEQUENCE
                         JSON GZIP 0) ;;
       sq <- get_sequence ;;
       full_client_request <- lift (extend_frame header sq payload_bytes) ;;
       ws_send full_client_request (io_init_send io) ;;
       res <- lift (io_init_recv io) ;;
       result <- lift (parse_message res) ;;
       match payload_msg result with
       | Some msg =>
           c <- lift (py_get msg "code" PNone) ;;
           if negb (py_eq c (PInt (success_code self1))) then
             error_msg <- lift (py_get msg "message" (PStr "未知错误")) ;;
             raise (mkExn Exception_
                      ("ASR初始化失败: " ++ py_str error_msg)%string)
           else ret tt
       | None => ret tt
       end)
      (fun e =>
         raise (mkExn Exception_ ("建立ASR连接失败: " ++ exn_str e)%string))
  else ret tt.

(** Lines 392-436: number the chunk, build the audio frame, send it and
    decode the response. *)
Definition send_audio (io : call_io) (audio_bytes : bytes) : M response :=
  sq <- get_sequence ;;
  modify_self (set_sequence (sq + 1)) ;;
  let is_last := false in
  self1 <- get_self ;;
  let audio_bytes :=
    if String.eqb (format (cfg self1)) "pcm" then
      if Z.of_nat (List.length audio_bytes) mod 2 =? 0
      then int16_tobytes audio_bytes
      else audio_bytes
    else audio_bytes in
  let payload_bytes := gzip_compress audio_bytes in
  audio_only_request <-
    lift (generate_header AUDIO_ONLY_REQUEST
            (if is_last : bool then NEG_WITH_SEQUENCE else POS_SEQUENCE)
            JSON GZIP 0) ;;
  sq <- get_sequence ;;
  let sq := if is_last : bool then - sq else sq in
  audio_only_request <-
    lift (extend_frame audio_only_request sq payload_bytes) ;;
  ws_send audio_only_request (io_send io) ;;
  res <- lift (io_recv io) ;;
  lift (parse_message res).

(** Lines 444-454: what the tracker reads in a message that has a
    ['result']: [(current_text, is_final, current_words)]. *)
Definition read_message (msg : pyval)
  : result (option (pyval * pyval * list pyval)) :=
  (has_result <- py_contains "result" msg ;;
   if has_result : bool then
     r <- py_getitem msg "result" ;;
     current_text <- py_get r "text" (PStr EmptyString) ;;
     is_final <- py_get msg "is_final" (PBool false) ;;
     has_utterances <- py_contains "utterances" r ;;
     current_words <-
       (if has_utterances : bool then
          us <- py_getitem r "utterances" ;;
          us <- py_iter us ;;
          extend_words [] us
        else Ok []) ;;
     Ok (Some (current_text, is_final, current_words))
   else Ok None)%result.

(** Lines 457-476: the update of the tracker; returns [partial_text]. *)
Definition update (current_text : pyval) (current_sequence : Z)
           (current_words : list pyval) : M string :=
  let partial_text := EmptyString in
  self0 <- get_self ;;
  if py_truthy current_text
     && (current_sequence >? _last_sequence self0) then
    let new_words := new_words_of current_words (_last_words self0) in
    partial_text <-
      match new_words with
      | [] => ret partial_text
      | _ :: _ =>
          new_text <- lift (str_join new_words) ;;
          modify_self (set_accumulated_text current_text) ;;
          modify_self (set_last_words current_words) ;;
          ret new_text
      end ;;
    modify_self (set_last_text current_text) ;;
    modify_self (set_last_sequence current_sequence) ;;
    ret partial_text
  else ret partial_text.

(** [result.get('payload_sequence', 0)]. *)
Definition current_sequence_of (result : response) : Z :=
  match payload_sequence result with Some s => s | None => 0 end.

(** Lines 438-484: the incremental result tracker. Returns
    [(partial_text, is_final)]. *)
Definition track (result : response) : M (string * pyval) :=
  let partial_text := EmptyString in
  let is_final := PBool false in
  match payload_msg result with
  | None => ret (partial_text, is_final)
  | Some msg =>
      r <- lift (read_message msg) ;;
      match r with
      | Some (current_text, is_final, current_words) =>
          let current_sequence := current_sequence_of result in
          partial_text <- update current_text current_sequence current_words ;;
          ret (partial_text, is_final)
      | None => ret (partial_text, is_final)
      end
  end.

(** The body of the [try]. *)
Definition process_chunk_body (io : call_io) (audio_bytes : bytes)
  : M (string * pyval) :=
  connect_and_init io ;;
  result <- send_audio io audio_bytes ;;
  track result.

(** Lines 486-501: the dict returned at the end of the [try], or by
    the handler. *)
Definition process_chunk_result (r : result (string * pyval) * machine)
  : chunk_result * machine :=
  match r with
  | (Ok (partial_text, is_final), m') =>
      (mkChunkResult None partial_text is_final
         (_accumulated_text (self m')) (_last_sequence (self m')), m')
  | (Raise e, m') =>
      (mkChunkResult (Some (exn_str e)) EmptyString (PBool false)
         (_accumulated_text (self m')) (_last_sequence (self m')), m')
  end.

Definition process_chunk (io : call_io) (audio_bytes : bytes) (m : machine)
  : chunk_result * machine :=
  process_chunk_result (process_chunk_body io audio_bytes m).

(** A session: the calls made on one client, in order. *)
Fixpoint process_chunks (calls : list (call_io * bytes)) (m : machine)
  : list chunk_result * machine :=
  match calls with
  | [] => ([], m)
  | (io, audio_bytes) :: calls' =>
      let '(r, m') := process_chunk io audio_bytes m in
      let '(rs, m'') := process_chunks calls' m' in
      (r :: rs, m'')
  end.

(** The tracker alone on a decoded response, with the exception handler
    of [process_chunk] around it. *)
Definition feed (result : response) (c : AsrWsClient)
  : chunk_result * AsrWsClient :=
  let '(r, m') := process_chunk_result (track result (mkMachine c [])) in
  (r, self m').

(** Successive responses fed to the tracker of one client. *)
Fixpoint feed_all (results : list response) (c : AsrWsClient)
  : list chunk_result * AsrWsClient :=
  match results with
  | [] => ([], c)
  | result :: results' =>
      let '(r, c') := feed result c in
      let '(rs, c'') := feed_all results' c' in
      (r :: rs, c'')
  end.

End Live.

(** ** States of the tracker *)

(** The client after an accepted response, with or without new words. *)
Definition accepted (current_text : pyval) (current_sequence : Z)
           (c : AsrWsClient) : AsrWsClient :=
  set_last_sequence current_sequence (set_last_text current_text c).

Definition accepted_words (current_text : pyval) (current_sequence : Z)
           (current_words : list pyval) (c : AsrWsClient) : AsrWsClient :=
  accepted current_text current_sequence
    (set_last_words current_words (set_accumulated_text current_text c)).

(** The fields the tracker owns. *)
Definition tracker_state (c : AsrWsClient)
  : pyval * Z * pyval * list pyval :=
  (_last_text c, _last_sequence c, _accumulated_text c, _last_words c).

(** ** Reading a frame that was sent *)

Definition frame_message_type (frame : bytes) : Z := Z.shiftr (nth 1 frame 0) 4.
Definition frame_flags (frame : bytes) : Z := Z.land (nth 1 frame 0) 15.
Definition frame_sequence (frame : bytes) : Z :=
  from_bytes_signed (slice frame 4 8).

(** The audio frames among the frames sent. *)
Definition audio_frames (frames : list bytes) : list bytes :=
  filter (fun frame => frame_message_type frame =? AUDIO_ONLY_REQUEST) frames.

(** The flags and the sequence number of the audio frames, oldest first. *)
Definition audio_flags (frames : list bytes) : list Z :=
  map frame_flags (audio_frames frames).
Definition audio_sequences (frames : list bytes) : list Z :=
  map frame_sequence (audio_frames frames).

(** What a frame sent by [process_chunk] is: the initial request or an
    audio frame with the flags of a frame that is not the last. *)
Definition live_frame (frame : bytes) : Prop :=
  frame_message_type frame = FULL_CLIENT_REQUEST \/
  (frame_message_type frame = AUDIO_ONLY_REQUEST /\
   frame_flags frame = POS_SEQUENCE /\ 0 < frame_sequence frame).

(** The invariant of a session: the frames sent are live frames, the
    audio frames are numbered in ascending order up to the counter
    [_sequence], and none was sent before the counter and the socket
    exist. *)
Definition sequence_inv (m : machine) : Prop :=
  Forall live_frame (sent m) /\
  StronglySorted Z.lt (audio_sequences (sent m)) /\
  match _sequence (self m) with
  | Some n => 1 <= n /\ Forall (fun s => s <= n) (audio_sequences (sent m))
  | None => audio_frames (sent m) = []
  end /\
  (_ws (self m) = None -> audio_frames (sent m) = []).

(** [c'] differs from [c] in the fields of the tracker at most, as far
    as the numbering goes. *)
Definition tracker_free (c' c : AsrWsClient) : Prop :=
  _sequence c' = _sequence c /\ _ws c' = _ws c.

(** ** An executable instance of the libraries

    Enough of gzip, UTF-8 and json to run the model on concrete frames:
    the compressed form is the data behind the two magic bytes of gzip,
    text is ASCII, and the JSON reader knows the literals. *)

Definition stored_compress (b : bytes) : bytes := 31 :: 139 :: b.

Definition stored_decompress (b : bytes) : result bytes :=
  match b with
  | 31 :: 139 :: b' => Ok b'
  | _ => Raise (mkExn BadGzipFile "Not a gzipped file")
  end.

Fixpoint ascii_decode (b : bytes) : result string :=
  match b with
  | [] => Ok EmptyString
  | x :: b' =>
      if (0 <=? x) && (x <? 128) then
        (s <- ascii_decode b' ;; Ok (String (ascii_of_N (Z.to_N x)) s))%result
      else Raise (mkExn UnicodeDecodeError "invalid start byte")
  end.

Fixpoint ascii_encode (s : string) : bytes :=
  match s with
  | EmptyString => []
  | String a s' => Z.of_N (N_of_ascii a) :: ascii_encode s'
  end.

Definition literal_loads (s : string) : result pyval :=
  if String.eqb s "null" then Ok PNone
  else if String.eqb s "true" then Ok (PBool true)
  else if String.eqb s "false" then Ok (PBool false)
  else if String.eqb s "{}" then Ok (PDict [])
  else if String.eqb s "[]" then Ok (PList [])
  else Raise (mkExn JSONDecodeError "Expecting value").

Definition literal_dumps (v : pyval) : string :=
  match v with
  | PNone => "null"
  | PBool true => "true"
  | PBool false => "false"
  | PList _ => "[]"
  | _ => "{}"
  end.

Definition literal_str (v : pyval) : string :=
  match v with
  | PStr s => s
  | PNone => "None"
  | PBool true => "True"
  | PBool false => "False"
  | _ => "..."
  end.

Definition stored_externals : Externals :=
  {| gzip_compress := stored_compress;
     gzip_decompress := stored_decompress;
     utf8_decode := ascii_decode;
     utf8_encode := ascii_encode;
     json_loads := literal_loads;
     json_dumps := literal_dumps;
     py_str := literal_str;
     gzip_decompress_compress := fun b => eq_refl |}.

(** ** Sample data *)

(** A response body as the service sends it: the cumulative text and the
    words of one utterance. *)
Definition sample_msg : pyval :=
  PDict
    [("result",
      PDict [("text", PStr "hello world");
             ("utterances",
              PList [PDict [("words",
                             PList [PDict [("text", PStr "hello")];
                                    PDict [("text", PStr "world")]])]])])].

(** The decoded response number 2 that carries [sample_msg]. *)
Definition sample_response : response :=
  mkResponse false (Some 2) None None (Some sample_msg) (Some 120).

(** A client that has accepted response 1 with the word "hello". *)
Definition sample_client : AsrWsClient :=
  set_last_words [PStr "hello"]
    (set_accumulated_text (PStr "hello")
       (set_last_sequence 1 (AsrWsClient_init default_config))).

(** A ServerAck of sequence 1 without body. *)
Definition ack_frame : bytes := [17; 176; 0; 0; 0; 0; 0; 1].

(** A call whose every suspension point succeeds and receives
    [ack_frame]. *)
Definition ack_io : call_io :=
  mkIO "reqid" (Ok WebSocket) (Ok tt) (Ok (Binary ack_frame)) (Ok tt)
       (Ok (Binary ack_frame)).



(** ** Batch mode: wav detection, slicing and sending *)

(** [b"RIFF"] and [b"WAVE"]. *)
Definition RIFF : bytes := [82; 73; 70; 70].
Definition WAVE : bytes := [87; 65; 86; 69].

Definition judge_wav (ori_date : bytes) : bool :=
  if (List.length ori_date <? 44)%nat then false
  else if bytes_eqb (slice ori_date 0 4) RIFF
          && bytes_eqb (slice ori_date 8 12) WAVE then true
  else false.

(** An index of a slice on a sequence of length [n]: a negative index
    counts from the end, and the result is clamped to [0, n]. *)
Definition slice_index (n i : Z) : Z :=
  if i <? 0 then Z.max 0 (i + n) else Z.min i n.

(** [data[i:j]] for any integers [i] and [j]. *)
Definition py_slice (data : bytes) (i j : Z) : bytes :=
  let n := Z.of_nat (List.length data) in
  let a := slice_index n i in
  let b := slice_index n j in
  firstn (Z.to_nat (b - a)) (skipn (Z.to_nat a) data).

(** What the generator [slice_data] yields when its loop is at [offset]:
    a chunk, and whether it is the last one. *)
Definition slice_data_step (data : bytes) (chunk_size offset : Z)
  : bytes * bool :=
  let data_len := Z.of_nat (List.length data) in
  if offset + chunk_size <? data_len
  then (py_slice data offset (offset + chunk_size), false)
  else (py_slice data offset data_len, true).

(** The items of [slice_data(data, chunk_size)] from [offset] on, when
    the generator ends within [fuel] items. *)
Fixpoint slice_data_from (fuel : nat) (data : bytes) (chunk_size offset : Z)
  : option (list (bytes * bool)) :=
  match fuel with
  | O => None
  | S fuel' =>
      let '(chunk, last) := slice_data_step data chunk_size offset in
      if last then Some [(chunk, last)]
      else option_map (cons (chunk, last))
             (slice_data_from fuel' data chunk_size (offset + chunk_size))
  end.

Definition slice_data (fuel : nat) (data : bytes) (chunk_size : Z)
  : option (list (bytes * bool)) :=
  slice_data_from fuel data chunk_size 0.

(** The outcome of each suspension point of [segment_data_processor]:
    the chunks are numbered from 0. *)
Record batch_io : Type := mkBatchIO {
  b_uuid4 : string;
  b_connect : result websocket;
  b_init_send : result unit;
  b_init_recv : result ws_message;
  b_send : nat -> result unit;
  b_recv : nat -> result ws_message
}.

(** What [segment_data_processor] returns: the last decoded response, or
    the dict [{'error': ..., 'code': 500}] of its handler. *)
Inductive batch_result : Type :=
| BatchResponse (r : response)
| BatchError (error : string) (code : Z).

(** The bytes of a frame after the header, the sequence number and the
    length. *)
Definition frame_payload (frame : bytes) : bytes := slice_from frame 12.

(** [a, a + 1, ..., a + k - 1]. *)
Definition ascending (a : Z) (k : nat) : list Z :=
  map (fun i => a + Z.of_nat i) (List.seq 0 k).

(** The header of an audio frame of the batch sender: kind
    AudioOnlyRequest with the flags NEG_WITH_SEQUENCE for the last
    chunk and POS_SEQUENCE for the others. *)
Definition audio_header (last : bool) : bytes :=
  [17; if last then 35 else 33; 17; 0].

Section Batch.
Context {E : Externals}.
Local Open Scope proc_scope.

(** Lines 257-277: one turn of the loop, for the chunk [chunk] numbered
    [sq]. *)
Definition send_segment (outcome : result unit) (received : result ws_message)
           (chunk : bytes) (last : bool) (sq : Z) : M response :=
  let payload_bytes := gzip_compress chunk in
  audio_only_request <-
    lift (generate_header AUDIO_ONLY_REQUEST POS_SEQUENCE JSON GZIP 0) ;;
  audio_only_request <-
    (if last
     then lift (generate_header AUDIO_ONLY_REQUEST NEG_WITH_SEQUENCE
                  JSON GZIP 0)
     else ret audio_only_request) ;;
  audio_only_request <-
    lift (extend_frame audio_only_request sq payload_bytes) ;;
  ws_send audio_only_request outcome ;;
  res <- lift received ;;
  lift (parse_message res).

(** Lines 255-283: the loop over the generator, which is at [offset] and
    has yielded [i] chunks; [sq] is the variable [seq]. [None] when the
    loop is still running after [fuel] turns. *)
Fixpoint audio_loop (fuel : nat) (io : batch_io) (wav_data : bytes)
         (segment_size offset : Z) (i : nat) (sq : Z) (m : machine)
  : option (result response * machine) :=
  match fuel with
  | O => None
  | S fuel' =>
      let '(chunk, last) := slice_data_step wav_data segment_size offset in
      let sq := sq + 1 in
      let sq := if last then - sq else sq in
      match send_segment (b_send io i) (b_recv io i) chunk last sq m with
      | (Ok result, m') =>
          if last then Some (Ok result, m')
          else audio_loop fuel' io wav_data segment_size
                 (offset + segment_size) (S i) sq m'
      | (Raise e, m') => Some (Raise e, m')
      end
  end.

(** Lines 207-218: the initial request, built before the [try]. *)
Definition full_client_request_of (self0 : AsrWsClient) (reqid : string)
  : result bytes :=
  (let sq := 1 in
   let request_params := construct_request self0 reqid in
   let payload_bytes := utf8_encode (json_dumps request_params) in
   let payload_bytes := gzip_compress payload_bytes in
   header <- generate_header FULL_CLIENT_REQUEST POS_SEQUENCE JSON GZIP 0 ;;
   extend_frame header sq payload_bytes)%result.

(** Lines 232-252: connection and initial exchange. *)
Definition batch_init (io : batch_io) (full_client_request : bytes)
  : M response :=
  ws <- lift (b_connect io) ;;
  ws_send full_client_request (b_init_send io) ;;
  res <- lift (b_init_recv io) ;;
  lift (parse_message res).

(** [segment_data_processor]: an exception of the [try] becomes the error
    dict; one raised while the initial request is built propagates. The
    pacing sleep changes nothing that is modelled. *)
Definition segment_data_processor (fuel : nat) (io : batch_io)
           (wav_data : bytes) (segment_size : Z) (m : machine)
  : option (result batch_result * machine) :=
  match full_client_request_of (self m) (b_uuid4 io) with
  | Raise e => Some (Raise e, m)
  | Ok full_client_request =>
      match batch_init io full_client_request m with
      | (Raise e, m') => Some (Ok (BatchError (exn_str e) 500), m')
      | (Ok result, m') =>
          match audio_loop fuel io wav_data segment_size 0 0 1 m' with
          | None => None
          | Some (Ok result', m'') => Some (Ok (BatchResponse result'), m'')
          | Some (Raise e, m'') =>
              Some (Ok (BatchError (exn_str e) 500), m'')
          end
      end
  end.

(** [execute]: [audio] is the outcome of reading [audio_path], when there
    is one. Without a path the method returns [None]. *)
Definition execute (fuel : nat) (io : batch_io) (audio : option (result bytes))
           (wav : result wav_info) (m : machine)
  : option (result (option batch_result) * machine) :=
  match audio with
  | None => Some (Ok None, m)
  | Some (Raise e) => Some (Raise e, m)
  | Some (Ok audio_data) =>
      match execute_segment_size (self m) wav with
      | Raise e => Some (Raise e, m)
      | Ok segment_size =>
          match segment_data_processor fuel io audio_data segment_size m with
          | None => None
          | Some (Ok r, m') => Some (Ok (Some r), m')
          | Some (Raise e, m') => Some (Raise e, m')
          end
      end
  end.

End Batch.

(** ** The socket service of [stream_voice_routes.py] *)

(** A Python dict with str keys, in insertion order. *)
Fixpoint assoc_get {A : Type} (k : string) (d : list (string * A)) : option A :=
  match d with
  | [] => None
  | (k', v) :: d' => if String.eqb k k' then Some v else assoc_get k d'
  end.

(** [d[k] = v]: in place when the key is there, at the end otherwise. *)
Fixpoint assoc_set {A : Type} (k : string) (v : A) (d : list (string * A))
  : list (string * A) :=
  match d with
  | [] => [(k, v)]
  | (k', v') :: d' =>
      if String.eqb k k' then (k, v) :: d' else (k', v') :: assoc_set k v d'
  end.

(** [del d[k]] for a key that is there. *)
Definition assoc_del {A : Type} (k : string) (d : list (string * A))
  : list (string * A) :=
  filter (fun kv => negb (String.eqb k (fst kv))) d.

(** The dataclass [RecognitionSession]; the client object goes with the
    frames it has sent. The fields [ws_conn], [last_active] and
    [audio_queue] are never used. *)
Record RecognitionSession : Type := mkSession {
  session_id : string;
  sid : string;
  asr_client : option machine;
  is_active : bool
}.

(** Where an event goes: [emit] in a handler answers the requester,
    [socketio.emit(..., room=r)] goes to a room. *)
Inductive target : Type :=
| ToRequester (request_sid : string)
| ToRoom (room : string).

Record event : Type := mkEvent {
  ev_name : string;
  ev_data : pyval;
  ev_to : target
}.

(** [VoiceRecognitionService]: the registry [self.sessions] and the
    events emitted so far. *)
Record VoiceRecognitionService : Type := mkService {
  sessions : list (string * RecognitionSession);
  emitted : list event
}.

Definition emit (ev : event) (s : VoiceRecognitionService)
  : VoiceRecognitionService :=
  mkService (sessions s) (emitted s ++ [ev]).

(** The dict [process_chunk] returns, as a Python value: the handler's
    dict starts with the key ['error']. *)
Definition result_dict (r : chunk_result) : pyval :=
  PDict
    ((match error r with Some e => [("error", PStr e)] | None => [] end)
     ++ [("partial_text", PStr (partial_text r));
         ("is_final", is_final r);
         ("full_text", full_text r);
         ("sequence", PInt (sequence r))]).

(** The keyword arguments of [create_asr_client]. *)
Definition service_config : config :=
  mkConfig 100 "test_user" "pcm" 16000 16 1 "raw" 1000.

(** The event [partial_result] built from a result. *)
Definition partial_result_event (now : pyval) (session_id : string)
           (r : pyval) : result event :=
  (pt <- py_getitem r "partial_text" ;;
   ft <- py_get r "full_text" (PStr EmptyString) ;;
   sq <- py_get r "sequence" (PInt 0) ;;
   fin <- py_get r "is_final" (PBool false) ;;
   Ok (mkEvent "partial_result"
         (PDict [("partial_text", pt); ("full_text", ft); ("sequence", sq);
                 ("is_final", fin); ("timestamp", now);
                 ("session_id", PStr session_id)])
         (ToRoom session_id)))%result.

(** Lines 281-299 of [process_audio_data]: the events sent for a result
    of [process_chunk]. *)
Definition result_events (now : pyval) (session_id : string) (r : pyval)
  : result (list event) :=
  (has_text <-
     (if py_truthy r then
        has_partial <- py_contains "partial_text" r ;;
        if has_partial : bool then Ok true
        else py_contains "full_text" r
      else Ok false) ;;
   if has_text : bool then
     pt <- py_get r "partial_text" PNone ;;
     if py_truthy pt then
       ev <- partial_result_event now session_id r ;;
       Ok [ev]
     else Ok []
   else
     has_error <-
       (if py_truthy r then py_contains "error" r else Ok false) ;;
     if has_error : bool then
       details <- py_getitem r "error" ;;
       Ok [mkEvent "error"
             (PDict [("message", PStr "ASR处理错误"); ("details", details)])
             (ToRoom session_id)]
     else Ok [])%result.

Definition set_asr_client (client : option machine) (x : RecognitionSession)
  : RecognitionSession :=
  mkSession (session_id x) (sid x) client (is_active x).

Section Service.
Context {E : Externals}.

(** [create_asr_client]: a new client, and a first call of
    [process_chunk] with no audio. The call returns its errors in its
    result, which is dropped. *)
Definition create_asr_client (io : call_io) : machine :=
  let client := mkMachine (AsrWsClient_init service_config) [] in
  snd (process_chunk io [] client).

(** [process_audio_data]: nothing is done for a session that is not
    registered or has no client. *)
Definition process_audio_data (io : call_io) (now : pyval)
           (audio_bytes : bytes) (session_id : string)
           (s : VoiceRecognitionService) : VoiceRecognitionService :=
  match assoc_get session_id (sessions s) with
  | None => s
  | Some session =>
      match asr_client session with
      | None => s
      | Some client =>
          let '(result, client) := process_chunk io audio_bytes client in
          let s := mkService
                     (assoc_set session_id
                        (set_asr_client (Some client) session) (sessions s))
                     (emitted s) in
          match result_events now session_id (result_dict result) with
          | Ok evs => mkService (sessions s) (emitted s ++ evs)
          | Raise e =>
              emit (mkEvent "error"
                      (PDict [("message", PStr "处理音频数据失败");
                              ("details", PStr (exn_str e))])
                      (ToRoom session_id)) s
          end
      end
  end.

(** [cleanup_session]: a last call of [process_chunk] with no audio on
    the client, then the session leaves the registry, and the client
    with it. *)
Definition cleanup_session (io : call_io) (session_id : string)
           (s : VoiceRecognitionService) : VoiceRecognitionService :=
  match assoc_get session_id (sessions s) with
  | None => s
  | Some session =>
      let session :=
        match asr_client session with
        | Some client =>
            set_asr_client (Some (snd (process_chunk io [] client))) session
        | None => session
        end in
      mkService (assoc_del session_id (sessions s)) (emitted s)
  end.

(** [cleanup_client_sessions]: the sessions of the socket [sid0] are
    listed first, then cleaned one by one; [io_of] gives the outcome of
    the socket operations of each. *)
Definition cleanup_client_sessions (io_of : string -> call_io) (sid0 : string)
           (s : VoiceRecognitionService) : VoiceRecognitionService :=
  let sessions_to_remove :=
    map fst (filter (fun kv => String.eqb (sid (snd kv)) sid0) (sessions s)) in
  fold_left (fun s session_id => cleanup_session (io_of session_id) session_id s)
            sessions_to_remove s.

(** [session_id in self.sessions] and [self.sessions[session_id]] for any
    value: a list or a dict cannot be hashed, and only a str can be a
    key of the registry. *)
Definition find_session (session_id : pyval) (s : VoiceRecognitionService)
  : result (option (string * RecognitionSession)) :=
  match session_id with
  | PStr k =>
      Ok (match assoc_get k (sessions s) with
          | Some x => Some (k, x)
          | None => None
          end)
  | PList _ => Raise (type_error "unhashable type: 'list'")
  | PDict _ => Raise (type_error "unhashable type: 'dict'")
  | _ => Ok None
  end.

Definition value_error (m : string) : exn := mkExn ValueError m.

(** The handler of [start_recognition]: [new_id] is the uuid drawn and
    [entered] the outcome of [enter_room]. *)
Definition handle_start_recognition (new_id : string) (io : call_io)
           (now : pyval) (request_sid : string) (entered : result unit)
           (s : VoiceRecognitionService) : VoiceRecognitionService :=
  let session := mkSession new_id request_sid None true in
  let s := mkService (assoc_set new_id session (sessions s)) (emitted s) in
  let session := set_asr_client (Some (create_asr_client io)) session in
  let s := mkService (assoc_set new_id session (sessions s)) (emitted s) in
  let s := emit (mkEvent "session_created"
                   (PDict [("session_id", PStr new_id); ("timestamp", now)])
                   (ToRequester request_sid)) s in
  match entered with
  | Ok _ => s
  | Raise e =>
      emit (mkEvent "error"
              (PDict [("message", PStr "创建会话失败");
                      ("details", PStr (exn_str e))])
              (ToRequester request_sid)) s
  end.

(** The handler of [audio_chunk]: [b64decode] stands for
    [base64.b64decode]; the clock is read twice, [now_result] in
    [process_audio_data] and [now] for the answer. *)
Definition handle_audio_chunk (b64decode : pyval -> result bytes)
           (io : call_io) (now_result now : pyval) (request_sid : string)
           (data : pyval)
           (s : VoiceRecognitionService) : VoiceRecognitionService :=
  let body : result VoiceRecognitionService :=
    (session_id <- py_get data "session_id" PNone ;;
     if negb (py_truthy session_id) then
       Raise (value_error "未提供会话ID")
     else
       found <- find_session session_id s ;;
       match found with
       | None =>
           Raise (value_error ("会话不存在: " ++ py_str session_id)%string)
       | Some (k, session) =>
           if negb (is_active session) then
             Raise (value_error ("会话已结束: " ++ py_str session_id)%string)
           else
             audio_data <- py_get data "audio_data" PNone ;;
             if negb (py_truthy audio_data) then
               Raise (value_error "未提供音频数据")
             else
               audio_bytes <-
                 match b64decode audio_data with
                 | Ok b => Ok b
                 | Raise e =>
                     Raise (value_error
                              ("音频数据解码失败: " ++ exn_str e)%string)
                 end ;;
               let s := process_audio_data io now_result audio_bytes k s in
               Ok (emit (mkEvent "audio_received"
                           (PDict [("status", PStr "success");
                                   ("timestamp", now)])
                           (ToRequester request_sid)) s)
       end)%result in
  match body with
  | Ok s' => s'
  | Raise e =>
      emit (mkEvent "error"
              (PDict [("message", PStr "处理音频数据失败");
                      ("details", PStr (exn_str e))])
              (ToRequester request_sid)) s
  end.

(** The handler of [end_recognition]; it has no [try], so what
    [data.get] or the lookup raises leaves the handler. *)
Definition handle_end_recognition (io : call_io) (now : pyval)
           (request_sid : string) (data : pyval)
           (s : VoiceRecognitionService) : result VoiceRecognitionService :=
  (session_id <- py_get data "session_id" PNone ;;
   found <- find_session session_id s ;;
   match found with
   | Some (k, _) =>
       let s := cleanup_session io k s in
       Ok (emit (mkEvent "session_ended"
                   (PDict [("session_id", session_id); ("timestamp", now)])
                   (ToRequester request_sid)) s)
   | None =>
       Ok (emit (mkEvent "error"
                   (PDict [("message",
                            PStr ("会话不存在: " ++ py_str session_id)%string)])
                   (ToRequester request_sid)) s)
   end)%result.

(** The handler of [disconnect]. *)
Definition handle_disconnect (io_of : string -> call_io) (request_sid : string)
           (s : VoiceRecognitionService) : VoiceRecognitionService :=
  cleanup_client_sessions io_of request_sid s.

End Service.

(** The requests of the clients of the service, each with the outcomes
    of what it draws from outside: the uuid, the clock, the socket
    operations, the base64 decoding. *)
Inductive request : Type :=
| StartRecognition (new_id : string) (io : call_io) (now : pyval)
                   (request_sid : string) (entered : result unit)
| AudioChunk (b64decode : pyval -> result bytes) (io : call_io)
             (now_result now : pyval) (request_sid : string) (data : pyval)
| EndRecognition (io : call_io) (now : pyval) (request_sid : string)
                 (data : pyval)
| Disconnect (io_of : string -> call_io) (request_sid : string).

(** The service after a request; a handler that raises leaves the
    service as it was. *)
Definition serve {E : Externals} (q : request) (s : VoiceRecognitionService)
  : VoiceRecognitionService :=
  match q with
  | StartRecognition new_id io now request_sid entered =>
      handle_start_recognition new_id io now request_sid entered s
  | AudioChunk b64decode io now_result now request_sid data =>
      handle_audio_chunk b64decode io now_result now request_sid data s
  | EndRecognition io now request_sid data =>
      match handle_end_recognition io now request_sid data s with
      | Ok s' => s'
      | Raise _ => s
      end
  | Disconnect io_of request_sid => handle_disconnect io_of request_sid s
  end.

Definition serve_all {E : Externals} (qs : list request)
           (s : VoiceRecognitionService) : VoiceRecognitionService :=
  fold_left (fun s q => serve q s) qs s.

(** The service as [__init__] leaves it. *)
Definition new_service : VoiceRecognitionService := mkService [] [].

(** What holds of every registered session: it is filed under its own
    id, it is active and it has a client. *)
Definition session_ok (kv : string * RecognitionSession) : Prop :=
  session_id (snd kv) = fst kv /\
  is_active (snd kv) = true /\
  asr_client (snd kv) <> None.

Definition registry_ok (s : VoiceRecognitionService) : Prop :=
  NoDup (map fst (sessions s)) /\ Forall session_ok (sessions s).

(** ** Shapes of values *)

(** [v] is a str. *)
Definition is_str (v : pyval) : Prop := exists s, v = PStr s.

(** [v] is a word of the service: a dict whose ['text'] is the string
    [w]. *)
Definition has_text (w : string) (v : pyval) : Prop :=
  exists d, v = PDict d /\ dict_lookup "text" d = Some (PStr w).

(** [u] is an utterance of the service: a dict whose ['words'] is the
    list of the words [ws]. *)
Definition has_words (ws : list string) (u : pyval) : Prop :=
  exists d l, u = PDict d /\ dict_lookup "words" d = Some (PList l) /\
              Forall2 has_text ws l.

(** * Properties *)

(** ** Bytes and integers *)

Lemma land_255 (x : Z) : Z.land x 255 = x mod 256.
Proof. change 255 with (Z.ones 8). rewrite Z.land_ones by lia. reflexivity. Qed.

Lemma land_15 (x : Z) : Z.land x 15 = x mod 16.
Proof. change 15 with (Z.ones 4). rewrite Z.land_ones by lia. reflexivity. Qed.

Lemma from_bytes_unsigned_be32 (u : Z) :
  0 <= u < 2 ^ 32 -> from_bytes_unsigned (be32 u) = u.
Proof.
  intros Hu. unfold from_bytes_unsigned, be32. cbn [fold_left].
  rewrite !land_255, !Z.shiftr_div_pow2 by lia.
  change (2 ^ 24) with 16777216. change (2 ^ 16) with 65536.
  change (2 ^ 8) with 256. change (2 ^ 32) with 4294967296 in Hu.
  Z.div_mod_to_equations. lia.
Qed.

Lemma testbit_31 (u : Z) :
  0 <= u < 2 ^ 32 -> Z.testbit u 31 = (2 ^ 31 <=? u).
Proof.
  intros Hu. rewrite Z.testbit_eqb by lia.
  change (2 ^ 31) with 2147483648. change (2 ^ 32) with 4294967296 in Hu.
  destruct (Z.leb_spec 2147483648 u); [apply Z.eqb_eq | apply Z.eqb_neq];
    Z.div_mod_to_equations; lia.
Qed.

Lemma from_bytes_signed_be32 (u : Z) :
  0 <= u < 2 ^ 32 ->
  from_bytes_signed (be32 u) = if 2 ^ 31 <=? u then u - 2 ^ 32 else u.
Proof.
  intros Hu. unfold from_bytes_signed.
  rewrite from_bytes_unsigned_be32 by assumption.
  change (8 * Z.of_nat (List.length (be32 u))) with 32.
  change (32 - 1) with 31. rewrite testbit_31 by assumption. reflexivity.
Qed.

(** What [to_bytes(4, "big", signed=True)] writes, [from_bytes] reads back. *)
Lemma from_bytes_signed_to_bytes4_signed (n : Z) :
  - 2 ^ 31 <= n < 2 ^ 31 ->
  exists b, to_bytes4_signed n = Ok b /\ List.length b = 4%nat /\
            from_bytes_signed b = n.
Proof.
  intros Hn. unfold to_bytes4_signed.
  replace ((- 2 ^ 31 <=? n) && (n <? 2 ^ 31)) with true
    by (symmetry; apply andb_true_iff;
        split; [apply Z.leb_le | apply Z.ltb_lt]; lia).
  eexists. split; [reflexivity|]. split; [reflexivity|].
  assert (Hm : 0 <= n mod 2 ^ 32 < 2 ^ 32) by (apply Z.mod_pos_bound; lia).
  rewrite from_bytes_signed_be32 by assumption.
  change (2 ^ 31) with 2147483648 in *. change (2 ^ 32) with 4294967296 in *.
  destruct (Z.leb_spec 2147483648 (n mod 4294967296));
    Z.div_mod_to_equations; lia.
Qed.


(** The two nibbles of a header byte. *)
Lemma nibbles (hi lo : Z) :
  0 <= hi < 16 -> 0 <= lo < 16 ->
  let b := Z.lor (Z.shiftl hi 4) lo in
  0 <= b < 256 /\ Z.shiftr b 4 = hi /\ Z.land b 15 = lo.
Proof.
  intros Hhi Hlo b.
  assert (Hb : b = hi * 16 + lo).
  { unfold b. rewrite Z.shiftl_mul_pow2 by lia. change (2 ^ 4) with 16.
    rewrite <- Z.lxor_lor, <- Z.add_nocarry_lxor; [reflexivity| |];
      apply Z.bits_inj'; intros i Hi; rewrite Z.land_spec, Z.bits_0;
      destruct (Z.ltb_spec i 4).
    - replace (hi * 16) with (hi * 2 ^ 4) by reflexivity.
      rewrite Z.mul_pow2_bits_low by lia. reflexivity.
    - replace lo with (lo mod 2 ^ 4) by (apply Z.mod_small; simpl; lia).
      rewrite Z.mod_pow2_bits_high by lia. apply andb_false_r.
    - replace (hi * 16) with (hi * 2 ^ 4) by reflexivity.
      rewrite Z.mul_pow2_bits_low by lia. reflexivity.
    - replace lo with (lo mod 2 ^ 4) by (apply Z.mod_small; simpl; lia).
      rewrite Z.mod_pow2_bits_high by lia. apply andb_false_r. }
  rewrite land_15, Z.shiftr_div_pow2 by lia. change (2 ^ 4) with 16.
  rewrite Hb. repeat split; try lia; Z.div_mod_to_equations; lia.
Qed.

(** [x & 2] as a condition is bit 1 of [x], and [x & 1] is bit 0. *)
Lemma bit_set_pow2 (x n : Z) : 0 <= n -> bit_set x (2 ^ n) = Z.testbit x n.
Proof.
  intros Hn. unfold bit_set.
  destruct (Z.testbit x n) eqn:Hb.
  - apply negb_true_iff, Z.eqb_neq. intros H0.
    assert (Ht : Z.testbit (Z.land x (2 ^ n)) n = true).
    { rewrite Z.land_spec, Hb, Z.pow2_bits_true by lia. reflexivity. }
    rewrite H0, Z.bits_0 in Ht. discriminate.
  - apply negb_false_iff, Z.eqb_eq, Z.bits_inj'. intros i Hi.
    rewrite Z.land_spec, Z.bits_0, Z.pow2_bits_eqb by lia.
    destruct (Z.eqb_spec n i); [subst; rewrite Hb|]; auto using andb_false_r.
Qed.

Lemma bit_set_1 (x : Z) : bit_set x 1 = Z.testbit x 0.
Proof. exact (bit_set_pow2 x 0 (Z.le_refl 0)). Qed.

Lemma bit_set_2 (x : Z) : bit_set x 2 = Z.testbit x 1.
Proof. apply (bit_set_pow2 x 1). lia. Qed.

(** ** The decoder *)

Section DecoderProperties.
Context {E : Externals}.

Lemma parse_response_short (res : bytes) :
  (List.length res < 4)%nat -> parse_response res = Raise index_out_of_range.
Proof.
  intros Hlen.
  destruct res as [|b0 [|b1 [|b2 [|b3 rest]]]]; try reflexivity.
  simpl in Hlen. lia.
Qed.

(** A FullServerResponse frame with a 4-byte header: the optional
    sequence [sqb], the size field [size] and whatever follows as body.
    The size field is stored, never compared with the body. *)
Lemma parse_full_server_response (b0 b1 b2 b3 : Z) (sqb size body : bytes) :
  Z.land b0 15 = 1 ->
  Z.shiftr b1 4 = FULL_SERVER_RESPONSE ->
  List.length sqb = (if Z.testbit (Z.land b1 15) 0 then 4 else 0)%nat ->
  List.length size = 4%nat ->
  parse_response ([b0; b1; b2; b3] ++ sqb ++ size ++ body) =
    (p <- decompress (Z.land b2 15) body ;;
     v <- deserialize (Z.shiftr b2 4) p ;;
     Ok (mkResponse (Z.testbit (Z.land b1 15) 1)
           (if Z.testbit (Z.land b1 15) 0
            then Some (from_bytes_signed sqb) else None)
           None None (Some v) (Some (from_bytes_signed size)))).
Proof.
  intros Hsize Hkind Hsqb Hlen.
  destruct size as [|s0 [|s1 [|s2 [|s3 [|? ?]]]]]; try discriminate Hlen.
  unfold parse_response. cbn [byte_at nth_error app rbind].
  rewrite Hsize, Hkind, bit_set_1, bit_set_2.
  change (Z.to_nat (1 * 4)) with 4%nat.
  cbn [slice_from skipn].
  destruct (Z.testbit (Z.land b1 15) 0).
  - destruct sqb as [|q0 [|q1 [|q2 [|q3 [|? ?]]]]]; try discriminate Hsqb.
    cbn [slice_from slice_to skipn firstn app].
    destruct (Z.testbit (Z.land b1 15) 1); cbn;
      destruct (decompress (Z.land b2 15) body); cbn; try reflexivity;
      destruct (deserialize (Z.shiftr b2 4) a); reflexivity.
  - destruct sqb; try discriminate Hsqb.
    cbn [slice_from slice_to skipn firstn app].
    destruct (Z.testbit (Z.land b1 15) 1); cbn;
      destruct (decompress (Z.land b2 15) body); cbn; try reflexivity;
      destruct (deserialize (Z.shiftr b2 4) a); reflexivity.
Qed.





(** C6, as amended: in a FullServerResponse frame the declared size is
    not compared with the body; a body of another length is
    decompressed, deserialized and returned like any other, with the
    declared size as [payload_size]. *)
Theorem parse_response_size_mismatch (b0 b1 b2 b3 : Z) (sqb size body : bytes) :
  Z.land b0 15 = 1 ->
  Z.shiftr b1 4 = FULL_SERVER_RESPONSE ->
  List.length sqb = (if Z.testbit (Z.land b1 15) 0 then 4 else 0)%nat ->
  List.length size = 4%nat ->
  from_bytes_signed size <> Z.of_nat (List.length body) ->
  parse_response ([b0; b1; b2; b3] ++ sqb ++ size ++ body) =
    (p <- decompress (Z.land b2 15) body ;;
     v <- deserialize (Z.shiftr b2 4) p ;;
     Ok (mkResponse (Z.testbit (Z.land b1 15) 1)
           (if Z.testbit (Z.land b1 15) 0
            then Some (from_bytes_signed sqb) else None)
           None None (Some v) (Some (from_bytes_signed size)))).
Proof.
  intros Hsize Hkind Hsqb Hlen _.
  apply parse_full_server_response; assumption.
Qed.

(** A frame of 4 bytes or more: the dict built from the header and the
    fixed fields, and the body to decode when the kind has one. *)
Lemma parse_response_long (res : bytes) :
  (4 <= List.length res)%nat ->
  exists (r0 : response) (body : option bytes) (size : Z),
    is_last_package r0 = bit_set (frame_flags res) 2 /\
    parse_response res =
      match body with
      | None => Ok r0
      | Some b =>
          p <- decompress (Z.land (nth 2 res 0) 15) b ;;
          v <- deserialize (Z.shiftr (nth 2 res 0) 4) p ;;
          Ok (set_payload_size size (set_payload_msg v r0))
      end.
Proof.
  intros Hlen.
  destruct res as [|b0 [|b1 [|b2 [|b3 rest]]]]; try (simpl in Hlen; lia).
  unfold parse_response, frame_flags. cbn [byte_at nth_error nth rbind].
  set (payload := slice_from _ _).
  destruct (bit_set (Z.land b1 15) 1), (bit_set (Z.land b1 15) 2),
    (Z.shiftr b1 4 =? FULL_SERVER_RESPONSE), (Z.shiftr b1 4 =? SERVER_ACK),
    (Z.shiftr b1 4 =? SERVER_ERROR_RESPONSE);
    cbn beta iota;
    try (eexists _, (Some _), _; split; [|reflexivity]; reflexivity);
    try (destruct (8 <=? Z.of_nat (List.length (slice_from payload 4)));
         [ eexists _, (Some _), _ | eexists _, None, 0 ];
         (split; [|reflexivity]); reflexivity);
    try (destruct (8 <=? Z.of_nat (List.length payload));
         [ eexists _, (Some _), _ | eexists _, None, 0 ];
         (split; [|reflexivity]); reflexivity);
    eexists _, None, 0; (split; [|reflexivity]); reflexivity.
Qed.

(** C5: when bit 1 of the flags nibble is set, every result of the
    decoder has [is_last_package = True], whatever the message kind;
    and the decoder gives a result unless the frame is shorter than its
    header or the decoding of the body raises. *)
Theorem parse_response_is_last (res : bytes) :
  Z.testbit (frame_flags res) 1 = true ->
  (forall r, parse_response res = Ok r -> is_last_package r = true) /\
  (forall e, parse_response res = Raise e ->
     (List.length res < 4)%nat \/
     exists body,
       (p <- decompress (Z.land (nth 2 res 0) 15) body ;;
        deserialize (Z.shiftr (nth 2 res 0) 4) p) = Raise e).
Proof.
  intros Hbit.
  destruct (Nat.lt_ge_cases (List.length res) 4) as [Hshort | Hlong].
  - rewrite parse_response_short by assumption.
    split; [discriminate | left; assumption].
  - destruct (parse_response_long res Hlong) as (r0 & body & size & Hlast & ->).
    rewrite bit_set_2, Hbit in Hlast.
    destruct body as [b|].
    + destruct (decompress (Z.land (nth 2 res 0) 15) b) as [p|e1] eqn:Hd;
        cbn [rbind].
      * destruct (deserialize (Z.shiftr (nth 2 res 0) 4) p) as [v|e2] eqn:Hs;
          cbn [rbind].
        -- split; [|discriminate]. intros r [= <-]. exact Hlast.
        -- split; [discriminate|]. intros e [= <-]. right. exists b.
           rewrite Hd. cbn [rbind]. exact Hs.
      * split; [discriminate|]. intros e [= <-]. right. exists b.
        rewrite Hd. reflexivity.
    + split; [|discriminate]. intros r [= <-]. exact Hlast.
Qed.

End DecoderProperties.


(** The other frames of the encoder do not come back either: without
    the sequence flag the sequence number is read as the size, and in a
    ServerAck the length is read as the echoed sequence and the first
    bytes of the body as the size. *)
Example encode_frame_other_kinds :
  (exists frame,
      encode_frame FULL_SERVER_RESPONSE NO_SEQUENCE NO_SERIALIZATION
        NO_COMPRESSION 7 [65; 66] = Ok frame /\
      @parse_response stored_externals frame
      = Ok (mkResponse false None None None
              (Some (PBytes [0; 0; 0; 2; 65; 66])) (Some 7))) /\
  (exists frame,
      encode_frame SERVER_ACK POS_SEQUENCE NO_SERIALIZATION NO_COMPRESSION 7
        [65; 66; 67; 68; 69] = Ok frame /\
      @parse_response stored_externals frame
      = Ok (mkResponse false (Some 7) (Some 5) None (Some (PBytes [69]))
              (Some 1094861636))).
Proof. split; eexists; split; reflexivity. Qed.




(** Against C6 as stated: size 5 declared, one byte of body; the byte
    is returned as the payload. *)
Lemma mismatched_body_counterexample :
  @parse_response stored_externals [17; 144; 0; 0; 0; 0; 0; 5; 65]
  = Ok (mkResponse false None None None (Some (PBytes [65])) (Some 5)).
Proof. reflexivity. Qed.

Lemma parse_response_size_mismatch_witness :
  @parse_response stored_externals
    [17; 145; 1; 0; 0; 0; 0; 2; 0; 0; 0; 9; 31; 139; 7]
  = Ok (mkResponse false (Some 2) None None (Some (PBytes [7])) (Some 9)).
Proof.
  apply (parse_response_size_mismatch (E := stored_externals)
           17 145 1 0 [0; 0; 0; 2] [0; 0; 0; 9] [31; 139; 7]);
    first [ reflexivity | vm_compute; discriminate ].
Defined.

Lemma parse_response_is_last_witness :
  Z.testbit (frame_flags [17; 179; 0; 0; 0; 0; 0; 3; 0; 0; 0; 7]) 1 = true /\
  forall r,
    @parse_response stored_externals [17; 179; 0; 0; 0; 0; 0; 3; 0; 0; 0; 7]
    = Ok r -> is_last_package r = true.
Proof.
  split; [reflexivity|].
  apply (parse_response_is_last (E := stored_externals)
           [17; 179; 0; 0; 0; 0; 0; 3; 0; 0; 0; 7]).
  reflexivity.
Defined.

(** The frame of the witness does decode: a ServerAck that ends the stream. *)
Example parse_response_server_ack :
  @parse_response stored_externals [17; 179; 0; 0; 0; 0; 0; 3; 0; 0; 0; 7]
  = Ok (mkResponse true (Some 3) (Some 7) None None None).
Proof. reflexivity. Qed.

(** ** Batch segment size *)

(** C4: with the defaults (pcm, 16000 Hz, 16 bits, 1 channel, 100 ms)
    [execute] cuts segments of 6400 bytes, twice the 3200 bytes of the
    specified formula, which the wav branch computes for the same audio. *)
Theorem execute_pcm_segment_size :
  (forall wav,
      execute_segment_size (AsrWsClient_init default_config) wav = Ok 6400) /\
  spec_pcm_segment_size 16000 2 1 100 = 3200 /\
  execute_segment_size
    (AsrWsClient_init (mkConfig 100 "test" "wav" 16000 16 1 "raw" 1000))
    (Ok (mkWavInfo 1 2 16000)) = Ok 3200.
Proof. repeat split. Qed.

(** ** The incremental result tracker *)

Section TrackerProperties.
Context {E : Externals}.

(** The three outcomes of a call of the tracker: nothing changes and
    nothing is emitted; the response is accepted without new words; it
    is accepted and its new words are emitted. *)
Lemma feed_spec (result : response) (c : AsrWsClient) :
  (snd (feed result c) = c /\
   partial_text (fst (feed result c)) = EmptyString /\
   full_text (fst (feed result c)) = _accumulated_text c /\
   sequence (fst (feed result c)) = _last_sequence c) \/
  (exists msg current_text is_final current_words,
      payload_msg result = Some msg /\
      read_message msg = Ok (Some (current_text, is_final, current_words)) /\
      py_truthy current_text = true /\
      _last_sequence c < current_sequence_of result /\
      ((new_words_of current_words (_last_words c) = [] /\
        feed result c =
          (mkChunkResult None EmptyString is_final (_accumulated_text c)
             (current_sequence_of result),
           accepted current_text (current_sequence_of result) c)) \/
       (new_words_of current_words (_last_words c) <> [] /\
        exists new_text,
          str_join (new_words_of current_words (_last_words c)) = Ok new_text /\
          feed result c =
            (mkChunkResult None new_text is_final current_text
               (current_sequence_of result),
             accepted_words current_text (current_sequence_of result)
               current_words c)))).
Proof.
  unfold feed, track.
  destruct (payload_msg result) as [msg|] eqn:Hmsg;
    [|left; repeat split].
  unfold bind, lift.
  destruct (read_message msg) as [[[[current_text is_final] current_words]|]|e]
    eqn:Hread; [| left; repeat split | left; repeat split].
  unfold update, bind, get_self. cbn [self].
  destruct (py_truthy current_text) eqn:Htruthy;
    [|left; repeat split].
  destruct (Z.gtb_spec (current_sequence_of result) (_last_sequence c))
    as [Hgt|Hle]; cbn [andb]; [|left; repeat split].
  destruct (new_words_of current_words (_last_words c)) as [|w ws] eqn:Hnew.
  - right. exists msg, current_text, is_final, current_words.
    do 4 (split; [first [reflexivity | assumption]|]).
    left. split; [exact Hnew | reflexivity].
  - unfold lift.
    destruct (str_join (w :: ws)) as [new_text|e] eqn:Hjoin.
    + right. exists msg, current_text, is_final, current_words.
      do 4 (split; [first [reflexivity | assumption]|]).
      right. split; [rewrite Hnew; discriminate|].
      exists new_text. split; [rewrite Hnew; exact Hjoin | reflexivity].
    + left. repeat split.
Qed.

Lemma feed_last_sequence_le (result : response) (c : AsrWsClient) :
  _last_sequence c <= _last_sequence (snd (feed result c)).
Proof.
  destruct (feed_spec result c)
    as [(-> & _) | (msg & text & fin & cw & _ & _ & _ & Hlt & [(_ & ->) | (_ & s & _ & ->)])];
    cbn; lia.
Qed.

Lemma feed_all_app (rs1 rs2 : list response) (c : AsrWsClient) :
  snd (feed_all (rs1 ++ rs2) c) = snd (feed_all rs2 (snd (feed_all rs1 c))).
Proof.
  revert c. induction rs1 as [|r rs1 IH]; intros c; [reflexivity|].
  cbn [app feed_all]. destruct (feed r c) as [o c'].
  specialize (IH c').
  destruct (feed_all (rs1 ++ rs2) c') as [os c''].
  destruct (feed_all rs1 c') as [os1 c1]. exact IH.
Qed.

Lemma feed_all_last_sequence_le (rs : list response) (c : AsrWsClient) :
  _last_sequence c <= _last_sequence (snd (feed_all rs c)).
Proof.
  revert c. induction rs as [|r rs IH]; intros c; [cbn; lia|].
  cbn [feed_all]. pose proof (feed_last_sequence_le r c) as Hr.
  destruct (feed r c) as [o c']. specialize (IH c').
  destruct (feed_all rs c') as [os c'']. cbn in *. lia.
Qed.

(** The new words are current words, and none is in [last_words]. *)
Lemma new_words_of_spec (current_words last_words : list pyval) :
  Forall (fun w => In w current_words /\ py_in_list w last_words = false)
         (new_words_of current_words last_words).
Proof.
  apply Forall_forall. intros w Hw. apply filter_In in Hw as (Hin & Hnot).
  split; [exact Hin | apply negb_true_iff; exact Hnot].
Qed.

(** C2: over any run of responses [last_sequence] never decreases; a
    response whose sequence number is not above [last_sequence] leaves
    the client as it was and returns an empty [partial_text]; and a
    [partial_text] that is not empty is the concatenation of the current
    words that are not in [last_words]. *)
Theorem tracker_monotone :
  (forall (rs1 rs2 : list response) (c : AsrWsClient),
      _last_sequence (snd (feed_all rs1 c))
      <= _last_sequence (snd (feed_all (rs1 ++ rs2) c))) /\
  (forall (result : response) (c : AsrWsClient),
      current_sequence_of result <= _last_sequence c ->
      snd (feed result c) = c /\ partial_text (fst (feed result c)) = EmptyString) /\
  (forall (result : response) (c : AsrWsClient),
      partial_text (fst (feed result c)) = EmptyString \/
      exists msg current_text is_final current_words,
        payload_msg result = Some msg /\
        read_message msg = Ok (Some (current_text, is_final, current_words)) /\
        str_join (new_words_of current_words (_last_words c))
        = Ok (partial_text (fst (feed result c))) /\
        Forall (fun w => In w current_words /\
                         py_in_list w (_last_words c) = false)
               (new_words_of current_words (_last_words c))).
Proof.
  split; [|split].
  - intros rs1 rs2 c. rewrite feed_all_app. apply feed_all_last_sequence_le.
  - intros result c Hle.
    destruct (feed_spec result c)
      as [(Hc & Hp & _) | (msg & text & fin & cw & _ & _ & _ & Hlt & _)];
      [split; assumption | lia].
  - intros result c.
    destruct (feed_spec result c)
      as [(_ & Hp & _) | (msg & text & fin & cw & Hmsg & Hread & _ & _ & [(_ & ->) | (_ & s & Hjoin & ->)])].
    + left. exact Hp.
    + left. reflexivity.
    + right. exists msg, text, fin, cw.
      repeat (split; [assumption|]). apply new_words_of_spec.
Qed.


(** C8: the same response fed twice in a row gives an empty
    [partial_text] the second time and leaves the accumulated text of
    the first call. *)
Theorem feed_twice (result : response) (c : AsrWsClient) :
  let c1 := snd (feed result c) in
  partial_text (fst (feed result c1)) = EmptyString /\
  _accumulated_text (snd (feed result c1)) = _accumulated_text c1 /\
  full_text (fst (feed result c1)) = _accumulated_text c1.
Proof.
  intros c1.
  assert (Hseq : (c1 = c /\ partial_text (fst (feed result c)) = EmptyString /\
                  full_text (fst (feed result c)) = _accumulated_text c)
                 \/ current_sequence_of result <= _last_sequence c1).
  { unfold c1.
    destruct (feed_spec result c)
      as [(Hc & Hp & Hf & _) | (msg & text & fin & cw & _ & _ & _ & _ & [(_ & ->) | (_ & s & _ & ->)])];
      [left; repeat split; assumption | right; cbn; lia | right; cbn; lia]. }
  destruct Hseq as [(Heq & Hp & Hf) | Hle].
  - rewrite Heq. unfold c1 in Heq. rewrite Heq. repeat split; assumption.
  - destruct (feed_spec result c1)
      as [(Hc & Hp & Hf & _) | (msg & text & fin & cw & _ & _ & _ & Hlt & _)];
      [|lia].
    rewrite Hc. repeat split; assumption.
Qed.

End TrackerProperties.

(** ** Reasoning on [process_chunk] *)

Section WpRules.
Context {A B : Type}.
Implicit Types (Q : A -> machine -> Prop) (R : exn -> machine -> Prop).

Lemma wp_ret (a : A) Q R m : Q a m -> wp (ret a) Q R m.
Proof. exact (fun H => H). Qed.

Lemma wp_raise (e : exn) Q R m : R e m -> wp (@raise A e) Q R m.
Proof. exact (fun H => H). Qed.

Lemma wp_lift (r : result A) Q R m :
  match r with Ok a => Q a m | Raise e => R e m end -> wp (lift r) Q R m.
Proof. unfold wp, lift. destruct r; exact (fun H => H). Qed.

Lemma wp_bind (c : M B) (k : B -> M A) Q R m :
  wp c (fun b m' => wp (k b) Q R m') R m -> wp (bind c k) Q R m.
Proof.
  unfold wp, bind. destruct (c m) as [[b|e] m']; exact (fun H => H).
Qed.

Lemma wp_try_except (c : M A) (h : exn -> M A) Q R m :
  wp c Q (fun e m' => wp (h e) Q R m') m -> wp (try_except c h) Q R m.
Proof.
  unfold wp, try_except. destruct (c m) as [[a|e] m']; exact (fun H => H).
Qed.

Lemma wp_mono (c : M A) Q Q' R R' m :
  wp c Q R m ->
  (forall a m', Q a m' -> Q' a m') ->
  (forall e m', R e m' -> R' e m') ->
  wp c Q' R' m.
Proof.
  unfold wp. destruct (c m) as [[a|e] m']; intros H HQ HR; auto.
Qed.

Lemma wp_run (c : M A) Q R m r m' :
  wp c Q R m -> c m = (r, m') ->
  match r with Ok a => Q a m' | Raise e => R e m' end.
Proof. unfold wp. intros H Hrun. rewrite Hrun in H. exact H. Qed.

End WpRules.

Lemma wp_get_self (Q : AsrWsClient -> machine -> Prop) R m :
  Q (self m) m -> wp get_self Q R m.
Proof. exact (fun H => H). Qed.

Lemma wp_modify_self (f : AsrWsClient -> AsrWsClient)
      (Q : unit -> machine -> Prop) R m :
  Q tt (mkMachine (f (self m)) (sent m)) -> wp (modify_self f) Q R m.
Proof. exact (fun H => H). Qed.

Lemma wp_ws_send (frame : bytes) (outcome : result unit)
      (Q : unit -> machine -> Prop) R m :
  match outcome with
  | Ok u => Q u (mkMachine (self m) (sent m ++ [frame]))
  | Raise e => R e (mkMachine (self m) (sent m ++ [frame]))
  end ->
  wp (ws_send frame outcome) Q R m.
Proof. unfold wp, ws_send. destruct outcome; exact (fun H => H). Qed.

Lemma wp_get_sequence (Q : Z -> machine -> Prop) (R : exn -> machine -> Prop) m :
  match _sequence (self m) with
  | Some n => Q n m
  | None => forall e, R e m
  end ->
  wp get_sequence Q R m.
Proof.
  unfold wp, get_sequence. destruct (_sequence (self m)); intros H;
    [exact H | apply H].
Qed.

(** One step of a weakest-precondition proof, by the head of the program. *)
Ltac wp_step :=
  lazymatch goal with
  | |- wp (bind _ _) _ _ _ => apply wp_bind
  | |- wp (ret _) _ _ _ => apply wp_ret
  | |- wp (raise _) _ _ _ => apply wp_raise
  | |- wp (lift (Ok _)) _ _ _ => apply wp_lift
  | |- wp (lift ?r) _ _ _ => apply wp_lift; destruct r eqn:?
  | |- wp get_self _ _ _ => apply wp_get_self
  | |- wp (modify_self _) _ _ _ => apply wp_modify_self
  | |- wp (ws_send _ ?o) _ _ _ => apply wp_ws_send; destruct o eqn:?
  | |- wp (try_except _ _) _ _ _ => apply wp_try_except
  | |- wp get_sequence _ _ _ =>
      apply wp_get_sequence;
      cbn [self sent _sequence set_sequence set_ws set_reqid
           set_is_first_chunk];
      try lazymatch goal with
        | |- match ?x with _ => _ end => destruct x eqn:?
        end
  | |- wp (if ?b then _ else _) _ _ _ => destruct b eqn:?
  | |- wp (match ?x with _ => _ end) _ _ _ => destruct x eqn:?
  end; cbv beta; cbn [self sent].

Ltac wp_steps := repeat wp_step.

Section LiveProperties.
Context {E : Externals}.

(** Connecting and sending leave the fields of the tracker alone,
    whether they return or raise. *)
Lemma connect_and_init_tracker (io : call_io) (m : machine) t :
  tracker_state (self m) = t ->
  wp (connect_and_init io)
     (fun _ m' => tracker_state (self m') = t)
     (fun _ m' => tracker_state (self m') = t) m.
Proof.
  intros Ht. unfold connect_and_init. wp_steps; try intros ?; exact Ht.
Qed.

Lemma send_audio_tracker (io : call_io) (audio_bytes : bytes) (m : machine) t :
  tracker_state (self m) = t ->
  wp (send_audio io audio_bytes)
     (fun _ m' => tracker_state (self m') = t)
     (fun _ m' => tracker_state (self m') = t) m.
Proof.
  intros Ht. unfold send_audio. wp_steps; try intros ?; exact Ht.
Qed.


(** The tracker reads and writes the client only. *)
Lemma track_feed (result : response) (m : machine) :
  process_chunk_result (track result m)
  = (fst (feed result (self m)),
     mkMachine (snd (feed result (self m))) (sent m)).
Proof.
  destruct m as [c frames]. unfold feed, track. cbn [self sent].
  destruct (payload_msg result) as [msg|]; [|reflexivity].
  unfold bind, lift.
  destruct (read_message msg) as [[[[text fin] cw]|]|e0]; try reflexivity.
  unfold update, bind, get_self, lift. cbn [self sent].
  destruct (py_truthy text && (current_sequence_of result >? _last_sequence c));
    [|reflexivity].
  destruct (new_words_of cw (_last_words c)) as [|w ws]; [reflexivity|].
  destruct (str_join (w :: ws)); reflexivity.
Qed.

(** Once the response is decoded, [process_chunk] is the tracker [feed],
    run on fields that connecting and sending have left as they were. *)
Lemma process_chunk_feed (io : call_io) (audio_bytes : bytes)
      (m m1 : machine) (result : response) :
  bind (connect_and_init io) (fun _ => send_audio io audio_bytes) m
  = (Ok result, m1) ->
  process_chunk io audio_bytes m
  = (fst (feed result (self m1)),
     mkMachine (snd (feed result (self m1))) (sent m1)) /\
  tracker_state (self m1) = tracker_state (self m).
Proof.
  intros Hrun. split.
  - rewrite <- track_feed.
    unfold process_chunk, process_chunk_body. f_equal.
    unfold bind in *.
    destruct (connect_and_init io m) as [[u|e] m0]; [|discriminate].
    destruct (send_audio io audio_bytes m0) as [[r|e] m0']; [|discriminate].
    injection Hrun as <- <-. reflexivity.
  - apply (wp_run (bind (connect_and_init io)
                     (fun _ => send_audio io audio_bytes))
             (fun _ m0 => tracker_state (self m0) = tracker_state (self m))
             (fun _ _ => True) m (Ok result) m1); [|exact Hrun].
    apply wp_bind.
    eapply wp_mono;
      [ apply connect_and_init_tracker; reflexivity | | intros; exact I ].
    intros u m0 H0. cbv beta in *.
    eapply wp_mono;
      [ apply send_audio_tracker; exact H0 | intros ? ? H; exact H
      | intros; exact I ].
Qed.



End LiveProperties.

(** ** Frames sent by a session *)

Lemma audio_frames_snoc (frames : list bytes) (frame : bytes) :
  audio_frames (frames ++ [frame])
  = audio_frames frames
    ++ (if frame_message_type frame =? AUDIO_ONLY_REQUEST then [frame] else []).
Proof. unfold audio_frames. rewrite filter_app. reflexivity. Qed.

(** The second header byte and the sequence number of an assembled
    frame. *)
Lemma extend_frame_header (h0 h1 h2 h3 sq : Z) (payload frame : bytes) :
  extend_frame [h0; h1; h2; h3] sq payload = Ok frame ->
  nth 1 frame 0 = h1 /\ frame_sequence frame = sq.
Proof.
  unfold extend_frame, generate_before_payload.
  destruct (to_bytes4_signed sq) as [b|] eqn:Hb; [|discriminate].
  cbn [rbind]. destruct (to_bytes4 _) as [size|]; [|discriminate].
  cbn [rbind]. intros [= <-]. split; [reflexivity|].
  assert (Hrange : - 2 ^ 31 <= sq < 2 ^ 31).
  { unfold to_bytes4_signed in Hb.
    destruct ((- 2 ^ 31 <=? sq) && (sq <? 2 ^ 31)) eqn:Hr; [|discriminate].
    apply andb_true_iff in Hr as (H1 & H2).
    apply Z.leb_le in H1. apply Z.ltb_lt in H2. lia. }
  destruct (from_bytes_signed_to_bytes4_signed sq Hrange) as (b' & Hb' & Hlen & Hv).
  rewrite Hb in Hb'. injection Hb' as <-.
  destruct b as [|q0 [|q1 [|q2 [|q3 [|? ?]]]]]; try discriminate Hlen.
  exact Hv.
Qed.

Lemma sequence_inv_fresh (m : machine) :
  Forall live_frame (sent m) ->
  audio_frames (sent m) = [] ->
  _sequence (self m) = Some 1 ->
  sequence_inv m.
Proof.
  intros Hlive Hempty Hseq. unfold sequence_inv, audio_sequences.
  rewrite Hempty, Hseq. cbn [map].
  split; [exact Hlive|]. split; [constructor|].
  split; [split; [lia | constructor] | reflexivity].
Qed.

(** Sending the initial request adds no audio frame. *)
Lemma sent_initial_request (frames : list bytes) (sq : Z) (payload frame : bytes) :
  Forall live_frame frames ->
  audio_frames frames = [] ->
  extend_frame [17; 17; 17; 0] sq payload = Ok frame ->
  Forall live_frame (frames ++ [frame]) /\
  audio_frames (frames ++ [frame]) = [].
Proof.
  intros Hlive Hempty Hframe.
  apply extend_frame_header in Hframe as (Hb1 & _).
  assert (Hty : frame_message_type frame = FULL_CLIENT_REQUEST)
    by (unfold frame_message_type; rewrite Hb1; reflexivity).
  split.
  - apply Forall_app. split; [exact Hlive|]. constructor; [|constructor].
    left. exact Hty.
  - rewrite audio_frames_snoc, Hempty, Hty. reflexivity.
Qed.

(** Counting a chunk keeps the invariant. *)
Lemma sequence_inv_count (c : AsrWsClient) (frames : list bytes) (n : Z) :
  sequence_inv (mkMachine c frames) ->
  _sequence c = Some n ->
  sequence_inv (mkMachine (set_sequence (n + 1) c) frames).
Proof.
  unfold sequence_inv. cbn [self sent _sequence _ws set_sequence].
  intros (Hlive & Hsorted & Hseq & Hws) Hn. rewrite Hn in Hseq.
  destruct Hseq as (H1 & Hle).
  repeat split; try assumption; try lia.
  eapply Forall_impl; [|exact Hle]. cbv beta. intros; lia.
Qed.

(** Sending the audio frame numbered by the counter keeps it too. *)
Lemma sequence_inv_audio (c : AsrWsClient) (frames : list bytes) (n : Z)
      (payload frame : bytes) :
  sequence_inv (mkMachine c frames) ->
  _sequence c = Some n ->
  _ws c <> None ->
  extend_frame [17; 33; 17; 0] (n + 1) payload = Ok frame ->
  sequence_inv (mkMachine (set_sequence (n + 1) c) (frames ++ [frame])).
Proof.
  unfold sequence_inv. cbn [self sent _sequence _ws set_sequence].
  intros (Hlive & Hsorted & Hseq & Hws) Hn Hsock Hframe. rewrite Hn in Hseq.
  destruct Hseq as (H1 & Hle).
  apply extend_frame_header in Hframe as (Hb1 & Hsq).
  assert (Hty : frame_message_type frame = AUDIO_ONLY_REQUEST)
    by (unfold frame_message_type; rewrite Hb1; reflexivity).
  assert (Hfl : frame_flags frame = POS_SEQUENCE)
    by (unfold frame_flags; rewrite Hb1; reflexivity).
  assert (Hseqs : audio_sequences (frames ++ [frame])
                  = audio_sequences frames ++ [n + 1]).
  { unfold audio_sequences. rewrite audio_frames_snoc, Hty, map_app.
    cbn. rewrite Hsq. reflexivity. }
  split; [|split; [|split]].
  - apply Forall_app. split; [exact Hlive|]. constructor; [|constructor].
    right. repeat split; try assumption. lia.
  - rewrite Hseqs. clear Hseqs.
    induction (audio_sequences frames) as [|s l IH]; cbn.
    + constructor; constructor.
    + inversion Hsorted; subst. inversion Hle; subst.
      constructor; [apply IH; assumption|].
      apply Forall_app. split; [assumption|]. constructor; [lia|constructor].
  - split; [lia|]. rewrite Hseqs. apply Forall_app. split.
    + eapply Forall_impl; [|exact Hle]. cbv beta. intros; lia.
    + constructor; [lia|constructor].
  - intros Hnone. contradiction.
Qed.

Section SessionProperties.
Context {E : Externals}.

Lemma connect_and_init_inv (io : call_io) (m : machine) :
  sequence_inv m ->
  wp (connect_and_init io)
     (fun _ m' => sequence_inv m' /\
                  _sequence (self m') <> None /\ _ws (self m') <> None)
     (fun _ m' => sequence_inv m') m.
Proof.
  intros Hinv. unfold connect_and_init.
  change (generate_header FULL_CLIENT_REQUEST POS_SEQUENCE JSON GZIP 0)
    with (Ok [17; 17; 17; 0]).
  wp_step. wp_step. wp_step.
  - assert (Hlive : Forall live_frame (sent m)) by apply Hinv.
    assert (Hempty : audio_frames (sent m) = []).
    { destruct Hinv as (_ & _ & Hseq & Hws).
      destruct (_sequence (self m)); [|exact Hseq].
      destruct (_ws (self m)); [discriminate|]. apply Hws. reflexivity. }
    wp_steps;
      try (split; [|split; cbn; discriminate]);
      (apply sequence_inv_fresh;
       cbn [self sent _sequence set_ws set_reqid set_is_first_chunk
            set_sequence];
       [ first [ exact Hlive
               | eapply proj1, sent_initial_request; eassumption ]
       | first [ exact Hempty
               | eapply proj2, sent_initial_request; eassumption ]
       | reflexivity ]).
  - split; [exact Hinv|].
    destruct (_sequence (self m)); [|discriminate].
    destruct (_ws (self m)); [|discriminate].
    split; discriminate.
Qed.

Lemma send_audio_inv (io : call_io) (audio_bytes : bytes) (m : machine) :
  sequence_inv m ->
  _sequence (self m) <> None ->
  _ws (self m) <> None ->
  wp (send_audio io audio_bytes)
     (fun _ m' => sequence_inv m') (fun _ m' => sequence_inv m') m.
Proof.
  destruct m as [c frames]. cbn [self sent]. intros Hinv Hseq Hws.
  unfold send_audio. cbv zeta.
  change (generate_header AUDIO_ONLY_REQUEST POS_SEQUENCE JSON GZIP 0)
    with (Ok [17; 33; 17; 0]).
  wp_steps;
    first [ eapply sequence_inv_audio; eassumption
          | apply sequence_inv_count; assumption
          | intros _; exact Hinv ].
Qed.

Lemma track_inv (result : response) (m : machine) :
  sequence_inv m ->
  wp (track result) (fun _ m' => sequence_inv m')
     (fun _ m' => sequence_inv m') m.
Proof.
  intros Hinv. unfold wp.
  pose proof (track_feed result m) as Hfeed.
  assert (Hsame : forall c', tracker_free c' (self m) ->
                        sequence_inv (mkMachine c' (sent m))).
  { intros c' (Hs & Hw). unfold sequence_inv. cbn [self sent].
    rewrite Hs, Hw. exact Hinv. }
  assert (Hc : tracker_free (snd (feed result (self m))) (self m)).
  { destruct (feed_spec result (self m))
      as [(-> & _) | (msg & text & fin & cw & _ & _ & _ & _ & [(_ & ->) | (_ & s & _ & ->)])];
      split; reflexivity. }
  destruct (track result m) as [[[pt fin]|e] m'];
    cbn in Hfeed; injection Hfeed as _ ->; apply Hsame; exact Hc.
Qed.

(** One call keeps the invariant of the session. *)
Lemma process_chunk_inv (io : call_io) (audio_bytes : bytes) (m : machine) :
  sequence_inv m -> sequence_inv (snd (process_chunk io audio_bytes m)).
Proof.
  intros Hinv.
  assert (Hwp : wp (process_chunk_body io audio_bytes)
                   (fun _ m' => sequence_inv m')
                   (fun _ m' => sequence_inv m') m).
  { unfold process_chunk_body. apply wp_bind.
    eapply wp_mono;
      [ apply connect_and_init_inv; exact Hinv | | intros ? ? H; exact H ].
    intros u m1 (H1 & Hs & Hw). apply wp_bind.
    eapply wp_mono;
      [ apply send_audio_inv; assumption | | intros ? ? H; exact H ].
    intros result m2 H2. apply track_inv. exact H2. }
  unfold process_chunk, process_chunk_result. unfold wp in Hwp.
  destruct (process_chunk_body io audio_bytes m) as [[[pt fin]|e] m'];
    exact Hwp.
Qed.

Lemma process_chunks_inv (calls : list (call_io * bytes)) (m : machine) :
  sequence_inv m -> sequence_inv (snd (process_chunks calls m)).
Proof.
  revert m. induction calls as [|[io audio_bytes] calls IH]; intros m Hinv;
    [exact Hinv|].
  cbn [process_chunks].
  pose proof (process_chunk_inv io audio_bytes m Hinv) as H1.
  destruct (process_chunk io audio_bytes m) as [r m'].
  specialize (IH m' H1). destruct (process_chunks calls m') as [rs m''].
  exact IH.
Qed.

(** C10: in a session started from a new client, every audio frame
    handed to the socket has the flags POS_SEQUENCE, never
    NEG_WITH_SEQUENCE, and a positive sequence number, and the sequence
    numbers of the audio frames are strictly ascending; every other
    frame sent is the initial request. *)
Theorem process_chunk_audio_frames (kwargs : config)
        (calls : list (call_io * bytes)) :
  let m := snd (process_chunks calls
                  (mkMachine (AsrWsClient_init kwargs) [])) in
  Forall (fun frame =>
            frame_flags frame = POS_SEQUENCE /\
            frame_flags frame <> NEG_WITH_SEQUENCE /\
            0 < frame_sequence frame)
         (audio_frames (sent m)) /\
  StronglySorted Z.lt (audio_sequences (sent m)) /\
  Forall (fun frame =>
            frame_message_type frame = FULL_CLIENT_REQUEST \/
            frame_message_type frame = AUDIO_ONLY_REQUEST)
         (sent m).
Proof.
  intros m.
  assert (Hinv : sequence_inv m).
  { apply process_chunks_inv. unfold sequence_inv. cbn.
    repeat split; constructor. }
  destruct Hinv as (Hlive & Hsorted & _ & _).
  split; [|split; [exact Hsorted|]].
  - apply Forall_forall. intros frame Hin.
    apply filter_In in Hin as (Hin & Hty). apply Z.eqb_eq in Hty.
    rewrite Forall_forall in Hlive.
    destruct (Hlive frame Hin) as [Hinit | (_ & Hflags & Hpos)].
    + rewrite Hty in Hinit. discriminate.
    + rewrite Hflags. repeat split; [discriminate | exact Hpos].
  - eapply Forall_impl; [|exact Hlive]. cbv beta.
    intros frame [Hinit | (Haudio & _)]; [left | right]; assumption.
Qed.

End SessionProperties.

(** ** Runs on sample data *)

Lemma tracker_monotone_witness :
  let c := set_last_sequence 5 sample_client in
  current_sequence_of sample_response <= _last_sequence c /\
  snd (feed sample_response c) = c /\
  partial_text (fst (feed sample_response c)) = EmptyString.
Proof.
  intros c.
  assert (Hle : current_sequence_of sample_response <= _last_sequence c)
    by (vm_compute; discriminate).
  split; [exact Hle|].
  exact (proj1 (proj2 tracker_monotone) sample_response c Hle).
Defined.


(** The second of two identical responses adds nothing. *)
Example sample_response_twice :
  let c1 := snd (feed sample_response sample_client) in
  partial_text (fst (feed sample_response sample_client)) = "world" /\
  partial_text (fst (feed sample_response c1)) = EmptyString /\
  full_text (fst (feed sample_response c1)) = PStr "hello world".
Proof. repeat split. Qed.


(** Two calls of a new session: the initial request, then the audio
    frames 2 and 3, both with the flags POS_SEQUENCE. *)
Example process_chunks_two_calls :
  let m := snd (@process_chunks stored_externals
                  [(ack_io, [1; 2]); (ack_io, [3; 4])]
                  (mkMachine (AsrWsClient_init default_config) [])) in
  map frame_message_type (sent m)
  = [FULL_CLIENT_REQUEST; AUDIO_ONLY_REQUEST; AUDIO_ONLY_REQUEST] /\
  audio_sequences (sent m) = [2; 3] /\
  audio_flags (sent m) = [POS_SEQUENCE; POS_SEQUENCE].
Proof. vm_compute. repeat split. Qed.

(** * Further properties of the module *)

(** ** Slicing a buffer *)

Lemma py_slice_chunk (data : bytes) (n : nat) (c : Z) :
  0 <= c ->
  Z.of_nat n + c <= Z.of_nat (List.length data) ->
  py_slice data (Z.of_nat n) (Z.of_nat n + c)
  = firstn (Z.to_nat c) (skipn n data).
Proof.
  intros Hc Hle. unfold py_slice, slice_index.
  destruct (Z.ltb_spec (Z.of_nat n) 0); [lia|].
  destruct (Z.ltb_spec (Z.of_nat n + c) 0); [lia|].
  rewrite !Z.min_l by lia.
  replace (Z.of_nat n + c - Z.of_nat n) with c by lia.
  rewrite Nat2Z.id. reflexivity.
Qed.

Lemma py_slice_tail (data : bytes) (n : nat) :
  (n <= List.length data)%nat ->
  py_slice data (Z.of_nat n) (Z.of_nat (List.length data)) = skipn n data.
Proof.
  intros Hle.
  replace (Z.of_nat (List.length data))
    with (Z.of_nat n + Z.of_nat (List.length data - n)) at 1 by lia.
  rewrite py_slice_chunk by lia. rewrite Nat2Z.id.
  apply firstn_all2. rewrite length_skipn. lia.
Qed.

(** The generator from an offset inside the buffer, for a positive chunk
    size: full chunks, then a last chunk that is not longer, and together
    they are the rest of the buffer. *)
Lemma slice_data_from_chunks (data : bytes) (chunk_size : Z) :
  0 < chunk_size ->
  forall (fuel n : nat),
    (n <= List.length data)%nat ->
    (List.length data - n < fuel)%nat ->
    exists (full : list bytes) (rest : bytes),
      slice_data_from fuel data chunk_size (Z.of_nat n)
      = Some (map (fun c => (c, false)) full ++ [(rest, true)]) /\
      List.concat full ++ rest = skipn n data /\
      Forall (fun c => Z.of_nat (List.length c) = chunk_size) full /\
      Z.of_nat (List.length rest) <= chunk_size /\
      ((n < List.length data)%nat -> rest <> []).
Proof.
  intros Hpos fuel. induction fuel as [|fuel IH]; intros n Hn Hfuel; [lia|].
  cbn [slice_data_from]. unfold slice_data_step.
  destruct (Z.ltb_spec (Z.of_nat n + chunk_size) (Z.of_nat (List.length data)))
    as [Hlt | Hge].
  - rewrite py_slice_chunk by lia.
    replace (Z.of_nat n + chunk_size)
      with (Z.of_nat (n + Z.to_nat chunk_size)) by lia.
    destruct (IH (n + Z.to_nat chunk_size)%nat) as (full & rest & -> & Hcat & Hfull & Hrest & Hne);
      [lia | lia |].
    exists (firstn (Z.to_nat chunk_size) (skipn n data) :: full), rest.
    split; [reflexivity|]. split; [|split; [|split]].
    + cbn [List.concat]. rewrite <- app_assoc, Hcat.
      rewrite <- (firstn_skipn (Z.to_nat chunk_size) (skipn n data)) at 2.
      rewrite skipn_skipn. f_equal. f_equal. lia.
    + constructor; [|exact Hfull].
      rewrite length_firstn, length_skipn. lia.
    + exact Hrest.
    + intros _. apply Hne. lia.
  - rewrite py_slice_tail by lia.
    exists [], (skipn n data). split; [reflexivity|].
    split; [reflexivity|]. split; [constructor|].
    split; [rewrite length_skipn; lia|].
    intros Hlt Hnil. apply (f_equal (@List.length Z)) in Hnil.
    rewrite length_skipn in Hnil. cbn in Hnil. lia.
Qed.

(** X1: for a positive chunk size the generator ends, within as many
    items as the buffer has bytes plus one: it yields chunks of exactly
    [chunk_size] bytes flagged [False], then one last chunk of at most
    [chunk_size] bytes flagged [True]; the chunks put end to end are the
    buffer, and the last chunk is empty only when the buffer is. *)
Theorem slice_data_chunks (fuel : nat) (data : bytes) (chunk_size : Z) :
  0 < chunk_size ->
  (List.length data < fuel)%nat ->
  exists (full : list bytes) (rest : bytes),
    slice_data fuel data chunk_size
    = Some (map (fun c => (c, false)) full ++ [(rest, true)]) /\
    List.concat full ++ rest = data /\
    Forall (fun c => Z.of_nat (List.length c) = chunk_size) full /\
    Z.of_nat (List.length rest) <= chunk_size /\
    (data <> [] -> rest <> []).
Proof.
  intros Hpos Hfuel.
  destruct (slice_data_from_chunks data chunk_size Hpos fuel 0)
    as (full & rest & Hrun & Hcat & Hfull & Hrest & Hne); [lia | lia |].
  exists full, rest. repeat split; try assumption.
  intros Hdata. apply Hne. destruct data; [contradiction | cbn; lia].
Qed.

Lemma slice_data_from_endless (data : bytes) (chunk_size : Z) :
  chunk_size <= 0 ->
  chunk_size < Z.of_nat (List.length data) ->
  forall (fuel : nat) (offset : Z),
    offset <= 0 -> slice_data_from fuel data chunk_size offset = None.
Proof.
  intros Hcs Hlen fuel. induction fuel as [|fuel IH]; intros offset Hoff;
    [reflexivity|].
  cbn [slice_data_from]. unfold slice_data_step.
  destruct (Z.ltb_spec (offset + chunk_size) (Z.of_nat (List.length data)));
    [|lia].
  rewrite IH by lia. reflexivity.
Qed.

(** X2: with a chunk size of zero or less that is below the length of
    the buffer, the generator never yields a last chunk: it is still
    running after any number of items. *)
Theorem slice_data_endless (fuel : nat) (data : bytes) (chunk_size : Z) :
  chunk_size <= 0 ->
  chunk_size < Z.of_nat (List.length data) ->
  slice_data fuel data chunk_size = None.
Proof.
  intros Hcs Hlen. unfold slice_data.
  apply slice_data_from_endless; [assumption | assumption | lia].
Qed.

(** ** The batch sender *)

Lemma ascending_cons (a : Z) (k : nat) :
  ascending a (S k) = a :: ascending (a + 1) k.
Proof.
  unfold ascending. cbn [List.seq map]. f_equal; [lia|].
  rewrite <- seq_shift, map_map. apply map_ext. intros i. lia.
Qed.

(** The payload of an assembled frame. *)
Lemma extend_frame_payload (h0 h1 h2 h3 sq : Z) (payload frame : bytes) :
  extend_frame [h0; h1; h2; h3] sq payload = Ok frame ->
  frame_payload frame = payload.
Proof.
  unfold extend_frame, generate_before_payload, to_bytes4_signed, to_bytes4.
  destruct ((- 2 ^ 31 <=? sq) && (sq <? 2 ^ 31)); [|discriminate].
  cbn [rbind].
  destruct (Z.of_nat (List.length payload) <? 0); [discriminate|].
  destruct (Z.of_nat (List.length payload) <? 2 ^ 32); [|discriminate].
  intros [= <-]. reflexivity.
Qed.

Section BatchProperties.
Context {E : Externals}.

(** One turn of the loop: the frame is assembled, handed to the socket,
    and the answer decoded. *)
Lemma send_segment_run (outcome : result unit) (received : result ws_message)
      (chunk : bytes) (last : bool) (sq : Z) (m : machine) :
  send_segment outcome received chunk last sq m
  = match extend_frame (audio_header last) sq (gzip_compress chunk) with
    | Raise e => (Raise e, m)
    | Ok frame =>
        let m' := mkMachine (self m) (sent m ++ [frame]) in
        match outcome with
        | Raise e => (Raise e, m')
        | Ok _ => ((res <- received ;; parse_message res)%result, m')
        end
    end.
Proof.
  unfold send_segment.
  change (generate_header AUDIO_ONLY_REQUEST POS_SEQUENCE JSON GZIP 0)
    with (Ok [17; 33; 17; 0]).
  change (generate_header AUDIO_ONLY_REQUEST NEG_WITH_SEQUENCE JSON GZIP 0)
    with (Ok [17; 35; 17; 0]).
  unfold bind, lift, ret, ws_send, audio_header.
  destruct last; cbn [fst snd];
    (destruct (extend_frame _ sq (gzip_compress chunk)) as [frame|e];
     [|reflexivity]);
    destruct outcome as [u|e]; try reflexivity;
    destruct received as [res|e]; try reflexivity; cbn [rbind];
    destruct (parse_message res); reflexivity.
Qed.

(** The frames of a run of the loop that ends with a response. *)
Lemma audio_loop_frames (io : batch_io) (data : bytes) (segment_size : Z) :
  0 < segment_size ->
  forall (fuel n i : nat) (sq : Z) (m m' : machine) (r : response),
    (n <= List.length data)%nat ->
    audio_loop fuel io data segment_size (Z.of_nat n) i sq m
    = Some (Ok r, m') ->
    exists (pre : list bytes) (lastf : bytes) (chunks : list bytes),
      sent m' = sent m ++ pre ++ [lastf] /\
      Forall (fun f => nth 1 f 0 = 33) pre /\
      nth 1 lastf 0 = 35 /\
      map frame_sequence pre = ascending (sq + 1) (List.length pre) /\
      frame_sequence lastf = - (sq + 1 + Z.of_nat (List.length pre)) /\
      Forall2 (fun f c => gzip_decompress (frame_payload f) = Ok c)
              (pre ++ [lastf]) chunks /\
      List.concat chunks = skipn n data.
Proof.
  intros Hpos fuel. induction fuel as [|fuel IH];
    intros n i sq m m' r Hn Hrun; [discriminate|].
  cbn [audio_loop] in Hrun. unfold slice_data_step in Hrun.
  destruct (Z.ltb_spec (Z.of_nat n + segment_size)
              (Z.of_nat (List.length data))) as [Hlt | Hge].
  - rewrite py_slice_chunk in Hrun by lia.
    rewrite send_segment_run in Hrun.
    destruct (extend_frame (audio_header false) (sq + 1) _) as [frame|e]
      eqn:Hframe; [|discriminate].
    cbv zeta in Hrun.
    destruct (b_send io i) as [u|e]; [|discriminate].
    destruct (b_recv io i) as [res|e]; [|discriminate]. cbn [rbind] in Hrun.
    destruct (parse_message res) as [r0|e]; [|discriminate].
    replace (Z.of_nat n + segment_size)
      with (Z.of_nat (n + Z.to_nat segment_size)) in Hrun by lia.
    apply IH in Hrun as (pre & lastf & chunks & Hsent & Hpre & Hlast & Hseqs & Hseq & Hpay & Hcat);
      [|lia].
    cbn [sent] in Hsent.
    pose proof (extend_frame_header _ _ _ _ _ _ _ Hframe) as (Hb1 & Hsq).
    pose proof (extend_frame_payload _ _ _ _ _ _ _ Hframe) as Hp.
    exists (frame :: pre), lastf,
      (firstn (Z.to_nat segment_size) (skipn n data) :: chunks).
    split; [rewrite Hsent, <- app_assoc; reflexivity|].
    split; [constructor; assumption|]. split; [exact Hlast|].
    split; [cbn [map List.length]; rewrite ascending_cons, Hsq, Hseqs;
            reflexivity|].
    split; [rewrite Hseq; cbn [List.length]; lia|].
    split.
    + cbn [app]. constructor; [|exact Hpay].
      rewrite Hp. apply gzip_decompress_compress.
    + cbn [List.concat]. rewrite Hcat.
      rewrite <- (firstn_skipn (Z.to_nat segment_size) (skipn n data)) at 2.
      rewrite skipn_skipn. f_equal. f_equal. lia.
  - rewrite py_slice_tail in Hrun by lia.
    rewrite send_segment_run in Hrun.
    destruct (extend_frame (audio_header true) (- (sq + 1)) _) as [frame|e]
      eqn:Hframe; [|discriminate].
    cbv zeta in Hrun.
    destruct (b_send io i) as [u|e]; [|discriminate].
    destruct (b_recv io i) as [res|e]; [|discriminate]. cbn [rbind] in Hrun.
    destruct (parse_message res) as [r0|e]; [|discriminate].
    injection Hrun as _ <-.
    pose proof (extend_frame_header _ _ _ _ _ _ _ Hframe) as (Hb1 & Hsq).
    pose proof (extend_frame_payload _ _ _ _ _ _ _ Hframe) as Hp.
    exists [], frame, [skipn n data]. cbn [sent app map List.length].
    split; [reflexivity|]. split; [constructor|]. split; [exact Hb1|].
    split; [reflexivity|]. split; [rewrite Hsq; lia|].
    split.
    + constructor; [|constructor]. rewrite Hp.
      apply gzip_decompress_compress.
    + cbn [List.concat]. apply app_nil_r.
Qed.

(** The loop ends when the segment size is positive. *)
Lemma audio_loop_ends (io : batch_io) (data : bytes) (segment_size : Z) :
  0 < segment_size ->
  forall (fuel n i : nat) (sq : Z) (m : machine),
    (n <= List.length data)%nat ->
    (List.length data - n < fuel)%nat ->
    audio_loop fuel io data segment_size (Z.of_nat n) i sq m <> None.
Proof.
  intros Hpos fuel. induction fuel as [|fuel IH];
    intros n i sq m Hn Hfuel; [lia|].
  cbn [audio_loop]. unfold slice_data_step.
  destruct (Z.ltb_spec (Z.of_nat n + segment_size)
              (Z.of_nat (List.length data))) as [Hlt | Hge].
  - destruct (send_segment _ _ _ false _ m) as [[r0|e] m1]; [|discriminate].
    replace (Z.of_nat n + segment_size)
      with (Z.of_nat (n + Z.to_nat segment_size)) by lia.
    apply IH; lia.
  - destruct (send_segment _ _ _ true _ m) as [[r0|e] m1]; discriminate.
Qed.

(** With a segment size of zero or less the loop never meets a last
    chunk, so it never ends with a response. *)
Lemma audio_loop_no_response (io : batch_io) (data : bytes) (segment_size : Z) :
  segment_size <= 0 ->
  segment_size < Z.of_nat (List.length data) ->
  forall (fuel : nat) (offset : Z) (i : nat) (sq : Z) (m m' : machine)
         (r : response),
    offset <= 0 ->
    audio_loop fuel io data segment_size offset i sq m <> Some (Ok r, m').
Proof.
  intros Hcs Hlen fuel. induction fuel as [|fuel IH];
    intros offset i sq m m' r Hoff; [discriminate|].
  cbn [audio_loop]. unfold slice_data_step.
  destruct (Z.ltb_spec (offset + segment_size) (Z.of_nat (List.length data)));
    [|lia].
  destruct (send_segment _ _ _ false _ m) as [[r0|e] m1]; [|discriminate].
  apply IH. lia.
Qed.

(** The initial request of the batch sender. *)
Lemma full_client_request_header (c : AsrWsClient) (reqid : string)
      (frame : bytes) :
  full_client_request_of c reqid = Ok frame ->
  nth 1 frame 0 = 17 /\ frame_sequence frame = 1.
Proof.
  unfold full_client_request_of.
  change (generate_header FULL_CLIENT_REQUEST POS_SEQUENCE JSON GZIP 0)
    with (Ok [17; 17; 17; 0]).
  cbn [rbind]. apply extend_frame_header.
Qed.

(** A run of the batch sender that ends with a response: the initial
    frame, the frames of the full chunks, the frame of the last chunk. *)
Lemma segment_data_processor_run (fuel : nat) (io : batch_io)
      (wav_data : bytes) (segment_size : Z) (m m' : machine) (r : response) :
  0 < segment_size ->
  segment_data_processor fuel io wav_data segment_size m
  = Some (Ok (BatchResponse r), m') ->
  exists (first : bytes) (pre : list bytes) (lastf : bytes)
         (chunks : list bytes),
    sent m' = sent m ++ first :: pre ++ [lastf] /\
    nth 1 first 0 = 17 /\ frame_sequence first = 1 /\
    Forall (fun f => nth 1 f 0 = 33) pre /\
    nth 1 lastf 0 = 35 /\
    map frame_sequence pre = ascending 2 (List.length pre) /\
    frame_sequence lastf = - (2 + Z.of_nat (List.length pre)) /\
    Forall2 (fun f c => gzip_decompress (frame_payload f) = Ok c)
            (pre ++ [lastf]) chunks /\
    List.concat chunks = wav_data.
Proof.
  intros Hpos Hrun. unfold segment_data_processor in Hrun.
  destruct (full_client_request_of (self m) (b_uuid4 io)) as [first|e]
    eqn:Hfirst; [|discriminate].
  apply full_client_request_header in Hfirst as (Hb1 & Hsq).
  unfold batch_init, bind, lift, ws_send in Hrun.
  destruct (b_connect io) as [ws|e]; [|discriminate].
  destruct (b_init_send io) as [u|e]; [|discriminate].
  destruct (b_init_recv io) as [res|e]; [|discriminate].
  destruct (parse_message res) as [r0|e]; [|discriminate].
  destruct (audio_loop fuel io wav_data segment_size 0 0 1 _)
    as [[[r1|e] m1]|] eqn:Hloop; try discriminate.
  injection Hrun as <- <-.
  apply (audio_loop_frames io wav_data segment_size Hpos fuel 0%nat) in Hloop
    as (pre & lastf & chunks & Hsent & Hpre & Hlast & Hseqs & Hseq & Hpay & Hcat);
    [|lia].
  cbn [sent] in Hsent.
  exists first, pre, lastf, chunks.
  split; [rewrite Hsent, <- app_assoc; reflexivity|].
  repeat (split; [assumption|]). exact Hcat.
Qed.

(** X3: in a run of the batch sender that ends with a response, the
    frames sent are the initial request numbered 1, then one audio frame
    per chunk: the frames of the full chunks carry POS_SEQUENCE and the
    numbers 2, 3, ...; the frame of the last chunk, and only that one,
    carries NEG_WITH_SEQUENCE and the next number negated. *)
Theorem segment_data_processor_frames (fuel : nat) (io : batch_io)
        (wav_data : bytes) (segment_size : Z) (m m' : machine) (r : response) :
  0 < segment_size ->
  segment_data_processor fuel io wav_data segment_size m
  = Some (Ok (BatchResponse r), m') ->
  exists (first : bytes) (pre : list bytes) (lastf : bytes),
    sent m' = sent m ++ first :: pre ++ [lastf] /\
    (frame_message_type first = FULL_CLIENT_REQUEST /\
     frame_flags first = POS_SEQUENCE /\ frame_sequence first = 1) /\
    Forall (fun f => frame_message_type f = AUDIO_ONLY_REQUEST /\
                     frame_flags f = POS_SEQUENCE) pre /\
    map frame_sequence pre = ascending 2 (List.length pre) /\
    (frame_message_type lastf = AUDIO_ONLY_REQUEST /\
     frame_flags lastf = NEG_WITH_SEQUENCE /\
     frame_sequence lastf = - (2 + Z.of_nat (List.length pre))).
Proof.
  intros Hpos Hrun.
  destruct (segment_data_processor_run fuel io wav_data segment_size m m' r
              Hpos Hrun)
    as (first & pre & lastf & chunks & Hsent & Hb1 & Hsq & Hpre & Hlast & Hseqs & Hseq & _).
  exists first, pre, lastf. split; [exact Hsent|].
  unfold frame_message_type, frame_flags.
  split; [rewrite Hb1; repeat split; exact Hsq|].
  split; [eapply Forall_impl; [|exact Hpre]; cbv beta; intros f ->;
          split; reflexivity|].
  split; [exact Hseqs|]. rewrite Hlast. repeat split. exact Hseq.
Qed.

(** X4: in a run of the batch sender that ends with a response, the
    payloads of the audio frames, decompressed and put end to end in the
    order sent, are the audio given: nothing is lost, repeated or
    reordered by the slicing. *)
Theorem segment_data_processor_audio (fuel : nat) (io : batch_io)
        (wav_data : bytes) (segment_size : Z) (m m' : machine) (r : response) :
  0 < segment_size ->
  segment_data_processor fuel io wav_data segment_size m
  = Some (Ok (BatchResponse r), m') ->
  exists (first : bytes) (audio : list bytes) (chunks : list bytes),
    sent m' = sent m ++ first :: audio /\
    Forall2 (fun f c => gzip_decompress (frame_payload f) = Ok c)
            audio chunks /\
    List.concat chunks = wav_data.
Proof.
  intros Hpos Hrun.
  destruct (segment_data_processor_run fuel io wav_data segment_size m m' r
              Hpos Hrun)
    as (first & pre & lastf & chunks & Hsent & _ & _ & _ & _ & _ & _ & Hpay & Hcat).
  exists first, (pre ++ [lastf]), chunks. repeat split; assumption.
Qed.

(** X5: with a positive segment size the batch sender ends, whatever the
    socket does: as many turns as the audio has bytes, plus one, are
    enough. *)
Theorem segment_data_processor_ends (fuel : nat) (io : batch_io)
        (wav_data : bytes) (segment_size : Z) (m : machine) :
  0 < segment_size ->
  (List.length wav_data < fuel)%nat ->
  exists out, segment_data_processor fuel io wav_data segment_size m
              = Some out.
Proof.
  intros Hpos Hfuel. unfold segment_data_processor.
  destruct (full_client_request_of (self m) (b_uuid4 io)) as [first|e];
    [|eexists; reflexivity].
  destruct (batch_init io first m) as [[r0|e] m0]; [|eexists; reflexivity].
  pose proof (audio_loop_ends io wav_data segment_size Hpos fuel 0 0 1 m0)
    as Hends.
  change (Z.of_nat 0) with 0 in Hends.
  destruct (audio_loop fuel io wav_data segment_size 0 0 1 m0)
    as [[[r1|e] m1]|]; try (eexists; reflexivity).
  exfalso. apply Hends; [lia | lia | reflexivity].
Qed.

(** X6: when the segment size [execute] computes is zero or less (pcm
    with [seg_duration = 0], say) and the file is not empty, [execute]
    never returns a response: it sends non-terminal frames until an
    error stops it. *)
Theorem execute_no_response (fuel : nat) (io : batch_io) (audio_data : bytes)
        (wav : result wav_info) (m m' : machine) (segment_size : Z)
        (r : response) :
  execute_segment_size (self m) wav = Ok segment_size ->
  segment_size <= 0 ->
  segment_size < Z.of_nat (List.length audio_data) ->
  execute fuel io (Some (Ok audio_data)) wav m
  <> Some (Ok (Some (BatchResponse r)), m').
Proof.
  intros Hsize Hcs Hlen. unfold execute. rewrite Hsize.
  unfold segment_data_processor.
  destruct (full_client_request_of (self m) (b_uuid4 io)) as [first|e];
    [|discriminate].
  destruct (batch_init io first m) as [[r0|e] m0]; [|discriminate].
  pose proof (audio_loop_no_response io audio_data segment_size Hcs Hlen
                fuel 0 0%nat 1 m0) as Hno.
  destruct (audio_loop fuel io audio_data segment_size 0 0 1 m0)
    as [[[r1|e] m1]|] eqn:Hloop; try discriminate.
  exfalso. apply (Hno m1 r1); [lia | reflexivity].
Qed.

End BatchProperties.

(** ** More on the header and the decoder *)

(** X7: [generate_before_payload] accepts exactly the sequence numbers of
    a signed 32-bit integer: it gives 4 bytes that read back as the
    number, and raises OverflowError for any other number. *)
Theorem generate_before_payload_range (sq : Z) :
  (- 2 ^ 31 <= sq < 2 ^ 31 ->
   exists b, generate_before_payload sq = Ok b /\
             List.length b = 4%nat /\ from_bytes_signed b = sq) /\
  (~ (- 2 ^ 31 <= sq < 2 ^ 31) ->
   generate_before_payload sq = Raise int_too_big).
Proof.
  split.
  - intros Hrange.
    destruct (from_bytes_signed_to_bytes4_signed sq Hrange)
      as (b & Hb & Hlen & Hv).
    exists b. unfold generate_before_payload. rewrite Hb.
    repeat split; assumption.
  - intros Hout. unfold generate_before_payload, to_bytes4_signed.
    destruct (Z.leb_spec (- 2 ^ 31) sq); destruct (Z.ltb_spec sq (2 ^ 31));
      try reflexivity.
    exfalso. apply Hout. split; assumption.
Qed.

(** X8: a header built from fields that fit their nibbles is 4 bytes
    long, starts with version 1 and header size 1, and gives the fields
    back where the decoder reads them. *)
Theorem generate_header_fields (message_type flags ser comp reserved : Z) :
  0 <= message_type < 16 -> 0 <= flags < 16 ->
  0 <= ser < 16 -> 0 <= comp < 16 -> 0 <= reserved < 256 ->
  exists b1 b2,
    generate_header message_type flags ser comp reserved
    = Ok [17; b1; b2; reserved] /\
    Z.shiftr 17 4 = PROTOCOL_VERSION /\ Z.land 17 15 = 1 /\
    Z.shiftr b1 4 = message_type /\ Z.land b1 15 = flags /\
    Z.shiftr b2 4 = ser /\ Z.land b2 15 = comp.
Proof.
  intros Hk Hf Hs Hc Hr.
  destruct (nibbles message_type flags Hk Hf) as (H1 & Hk1 & Hf1).
  destruct (nibbles ser comp Hs Hc) as (H2 & Hs2 & Hc2).
  exists (Z.lor (Z.shiftl message_type 4) flags),
    (Z.lor (Z.shiftl ser 4) comp).
  split; [|repeat split; assumption].
  unfold generate_header, bytearray_append.
  change (Z.lor (Z.shiftl PROTOCOL_VERSION 4) 1) with 17. cbn [rbind].
  change ((0 <=? 17) && (17 <? 256)) with true. cbn [rbind app].
  destruct (Z.leb_spec 0 (Z.lor (Z.shiftl message_type 4) flags)); [|lia].
  destruct (Z.ltb_spec (Z.lor (Z.shiftl message_type 4) flags) 256); [|lia].
  cbn [andb rbind app].
  destruct (Z.leb_spec 0 (Z.lor (Z.shiftl ser 4) comp)); [|lia].
  destruct (Z.ltb_spec (Z.lor (Z.shiftl ser 4) comp) 256); [|lia].
  cbn [andb rbind app].
  destruct (Z.leb_spec 0 reserved); [|lia].
  destruct (Z.ltb_spec reserved 256); [|lia].
  reflexivity.
Qed.

Lemma lor_byte (a b : Z) :
  0 <= a < 256 -> 0 <= b < 256 -> 0 <= Z.lor a b < 256.
Proof.
  intros Ha Hb. split; [apply Z.lor_nonneg; lia|].
  assert (Hmod : Z.lor a b = Z.lor a b mod 2 ^ 8).
  { apply Z.bits_inj'. intros i Hi.
    destruct (Z.ltb_spec i 8).
    - rewrite Z.mod_pow2_bits_low by lia. reflexivity.
    - rewrite Z.mod_pow2_bits_high by lia. rewrite Z.lor_spec.
      replace a with (a mod 2 ^ 8) by (apply Z.mod_small; simpl; lia).
      replace b with (b mod 2 ^ 8) by (apply Z.mod_small; simpl; lia).
      rewrite !Z.mod_pow2_bits_high by lia. reflexivity. }
  rewrite Hmod. apply Z.mod_pos_bound. reflexivity.
Qed.

(** X9: only the bytes of the header are range-checked, not the nibbles:
    flags between 16 and 255 are accepted, and their high nibble is
    or-ed into the message kind the decoder will read. *)
Theorem generate_header_wide_flags (message_type flags : Z) :
  0 <= message_type < 16 -> 16 <= flags < 256 ->
  exists b1,
    generate_header message_type flags JSON GZIP 0 = Ok [17; b1; 17; 0] /\
    Z.shiftr b1 4 = Z.lor message_type (Z.shiftr flags 4) /\
    Z.land b1 15 = Z.land flags 15.
Proof.
  intros Hk Hf.
  exists (Z.lor (Z.shiftl message_type 4) flags).
  assert (Hsh : 0 <= Z.shiftl message_type 4 < 256).
  { rewrite Z.shiftl_mul_pow2 by lia. change (2 ^ 4) with 16. lia. }
  pose proof (lor_byte _ flags Hsh ltac:(lia)) as Hb.
  split; [|split].
  - unfold generate_header, bytearray_append.
    change (Z.lor (Z.shiftl PROTOCOL_VERSION 4) 1) with 17. cbn [rbind].
    change ((0 <=? 17) && (17 <? 256)) with true. cbn [rbind app].
    destruct (Z.leb_spec 0 (Z.lor (Z.shiftl message_type 4) flags)); [|lia].
    destruct (Z.ltb_spec (Z.lor (Z.shiftl message_type 4) flags) 256); [|lia].
    reflexivity.
  - rewrite Z.shiftr_lor, Z.shiftr_shiftl_l by lia.
    rewrite Z.sub_diag, Z.shiftl_0_r. reflexivity.
  - apply Z.bits_inj'. intros i Hi.
    rewrite !Z.land_spec, Z.lor_spec.
    destruct (Z.ltb_spec i 4).
    + rewrite Z.shiftl_spec_low by lia. reflexivity.
    + change 15 with (Z.ones 4). rewrite Z.ones_spec_high by lia.
      rewrite !andb_false_r. reflexivity.
Qed.

Section MoreDecoderProperties.
Context {E : Externals}.

(** X10: the decoder skips the header extension without reading it: a
    frame whose header announces [n] words and carries [4 * (n - 1)]
    extension bytes decodes like the frame without them and with a
    header of one word. *)
Theorem parse_response_skips_extension (b0 b0' b1 b2 b3 : Z)
        (ext rest : bytes) :
  1 <= Z.land b0 15 ->
  Z.of_nat (List.length ext) = 4 * (Z.land b0 15 - 1) ->
  Z.land b0' 15 = 1 ->
  parse_response (b0 :: b1 :: b2 :: b3 :: ext ++ rest)
  = parse_response (b0' :: b1 :: b2 :: b3 :: rest).
Proof.
  intros Hn Hext H1.
  unfold parse_response. cbn [byte_at nth_error rbind]. rewrite H1.
  assert (Hskip : slice_from (b0 :: b1 :: b2 :: b3 :: ext ++ rest)
                    (Z.to_nat (Z.land b0 15 * 4)) = rest).
  { unfold slice_from.
    replace (Z.to_nat (Z.land b0 15 * 4)) with (4 + List.length ext)%nat
      by lia.
    cbn [Nat.add skipn].
    rewrite skipn_app, skipn_all, Nat.sub_diag. reflexivity. }
  rewrite Hskip. reflexivity.
Qed.

(** X11: a header length of 0 is not rejected: the payload then starts at
    the first byte of the frame, so a FullServerResponse without
    sequence has its own 4 header bytes read as the size field and the
    rest of the frame as the body. *)
Theorem parse_response_header_size_zero (b0 b1 b2 b3 : Z) (rest : bytes) :
  Z.land b0 15 = 0 ->
  Z.shiftr b1 4 = FULL_SERVER_RESPONSE ->
  Z.testbit (Z.land b1 15) 0 = false ->
  parse_response (b0 :: b1 :: b2 :: b3 :: rest)
  = (p <- decompress (Z.land b2 15) rest ;;
     v <- deserialize (Z.shiftr b2 4) p ;;
     Ok (mkResponse (Z.testbit (Z.land b1 15) 1) None None None (Some v)
           (Some (from_bytes_signed [b0; b1; b2; b3])))).
Proof.
  intros Hsize Hkind Hbit.
  unfold parse_response. cbn [byte_at nth_error rbind].
  rewrite Hsize, Hkind, bit_set_1, bit_set_2, Hbit.
  change (Z.to_nat (0 * 4)) with 0%nat.
  cbn [slice_from slice_to skipn firstn].
  destruct (Z.testbit (Z.land b1 15) 1); cbn;
    destruct (decompress (Z.land b2 15) rest); cbn; try reflexivity;
    destruct (deserialize (Z.shiftr b2 4) a); reflexivity.
Qed.

(** X12: a ServerErrorResponse frame gives the error code and the body:
    after the header and the optional sequence, 4 bytes of unsigned code,
    4 bytes of unsigned size, and the body, which is decompressed and
    deserialized as the header says. *)
Theorem parse_response_server_error (b0 b1 b2 b3 : Z)
        (sqb code4 size body : bytes) :
  Z.land b0 15 = 1 ->
  Z.shiftr b1 4 = SERVER_ERROR_RESPONSE ->
  List.length sqb = (if Z.testbit (Z.land b1 15) 0 then 4 else 0)%nat ->
  List.length code4 = 4%nat ->
  List.length size = 4%nat ->
  parse_response ([b0; b1; b2; b3] ++ sqb ++ code4 ++ size ++ body)
  = (p <- decompress (Z.land b2 15) body ;;
     v <- deserialize (Z.shiftr b2 4) p ;;
     Ok (mkResponse (Z.testbit (Z.land b1 15) 1)
           (if Z.testbit (Z.land b1 15) 0
            then Some (from_bytes_signed sqb) else None)
           None (Some (from_bytes_unsigned code4)) (Some v)
           (Some (from_bytes_unsigned size)))).
Proof.
  intros Hsize Hkind Hsqb Hcode Hlen.
  destruct code4 as [|c0 [|c1 [|c2 [|c3 [|? ?]]]]]; try discriminate Hcode.
  destruct size as [|s0 [|s1 [|s2 [|s3 [|? ?]]]]]; try discriminate Hlen.
  unfold parse_response. cbn [byte_at nth_error app rbind].
  rewrite Hsize, Hkind, bit_set_1, bit_set_2.
  change (Z.to_nat (1 * 4)) with 4%nat.
  cbn [slice_from skipn].
  destruct (Z.testbit (Z.land b1 15) 0).
  - destruct sqb as [|q0 [|q1 [|q2 [|q3 [|? ?]]]]]; try discriminate Hsqb.
    cbn [slice_from slice_to slice skipn firstn app Nat.sub].
    destruct (Z.testbit (Z.land b1 15) 1); cbn;
      destruct (decompress (Z.land b2 15) body); cbn; try reflexivity;
      destruct (deserialize (Z.shiftr b2 4) a); reflexivity.
  - destruct sqb; try discriminate Hsqb.
    cbn [slice_from slice_to slice skipn firstn app Nat.sub].
    destruct (Z.testbit (Z.land b1 15) 1); cbn;
      destruct (decompress (Z.land b2 15) body); cbn; try reflexivity;
      destruct (deserialize (Z.shiftr b2 4) a); reflexivity.
Qed.

(** X13: a ServerAck frame gives the echoed sequence; it has a body only
    when at least 8 bytes follow the header and the optional sequence.
    With fewer bytes the decoder returns without a payload, whatever the
    compression and serialization, and never raises. *)
Theorem parse_response_server_ack_short (b0 b1 b2 b3 : Z) (sqb tail : bytes) :
  Z.land b0 15 = 1 ->
  Z.shiftr b1 4 = SERVER_ACK ->
  List.length sqb = (if Z.testbit (Z.land b1 15) 0 then 4 else 0)%nat ->
  (List.length tail < 8)%nat ->
  parse_response ([b0; b1; b2; b3] ++ sqb ++ tail)
  = Ok (mkResponse (Z.testbit (Z.land b1 15) 1)
          (if Z.testbit (Z.land b1 15) 0
           then Some (from_bytes_signed sqb) else None)
          (Some (from_bytes_signed (slice_to tail 4))) None None None).
Proof.
  intros Hsize Hkind Hsqb Hshort.
  unfold parse_response. cbn [byte_at nth_error app rbind].
  rewrite Hsize, Hkind, bit_set_1, bit_set_2.
  change (Z.to_nat (1 * 4)) with 4%nat.
  cbn [slice_from skipn].
  assert (Hlen : (8 <=? Z.of_nat (List.length tail)) = false)
    by (apply Z.leb_gt; lia).
  destruct (Z.testbit (Z.land b1 15) 0).
  - destruct sqb as [|q0 [|q1 [|q2 [|q3 [|? ?]]]]]; try discriminate Hsqb.
    cbn [slice_from slice_to skipn firstn app].
    destruct (Z.testbit (Z.land b1 15) 1); cbn; rewrite Hlen; reflexivity.
  - destruct sqb; try discriminate Hsqb.
    cbn [slice_from slice_to skipn firstn app].
    destruct (Z.testbit (Z.land b1 15) 1); cbn; rewrite Hlen; reflexivity.
Qed.

(** X14: for a frame of 4 bytes or more whose kind is none of the three
    server kinds (the client kinds, or a kind that is not defined), the
    decoder returns the terminal flag and the sequence number when the
    flags announce one, and nothing else; it never raises and never
    looks at the body. *)
Theorem parse_response_other_kinds (b0 b1 b2 b3 : Z) (rest : bytes) :
  Z.land b0 15 = 1 ->
  Z.shiftr b1 4 <> FULL_SERVER_RESPONSE ->
  Z.shiftr b1 4 <> SERVER_ACK ->
  Z.shiftr b1 4 <> SERVER_ERROR_RESPONSE ->
  parse_response (b0 :: b1 :: b2 :: b3 :: rest)
  = Ok (mkResponse (Z.testbit (Z.land b1 15) 1)
          (if Z.testbit (Z.land b1 15) 0
           then Some (from_bytes_signed (slice_to rest 4)) else None)
          None None None None).
Proof.
  intros Hsize H1 H2 H3.
  unfold parse_response. cbn [byte_at nth_error rbind].
  rewrite Hsize, bit_set_1, bit_set_2.
  rewrite (proj2 (Z.eqb_neq _ _) H1), (proj2 (Z.eqb_neq _ _) H2),
    (proj2 (Z.eqb_neq _ _) H3).
  destruct (Z.testbit (Z.land b1 15) 0), (Z.testbit (Z.land b1 15) 1);
    reflexivity.
Qed.

End MoreDecoderProperties.

(** ** More on the tracker *)

Lemma word_texts_ok (ws : list string) (l : list pyval) :
  Forall2 has_text ws l -> word_texts l = Ok (map PStr ws).
Proof.
  induction 1 as [|w v ws l (d & -> & Hd) _ IH]; [reflexivity|].
  cbn [word_texts py_getitem map]. rewrite Hd. cbn [rbind].
  rewrite IH. reflexivity.
Qed.

Lemma extend_words_ok (wss : list (list string)) (us : list pyval) :
  Forall2 has_words wss us ->
  forall acc, extend_words acc us
              = Ok (acc ++ map PStr (List.concat wss)).
Proof.
  induction 1 as [|ws u wss us (d & l & -> & Hd & Hl) _ IH]; intros acc.
  - cbn. rewrite app_nil_r. reflexivity.
  - cbn [extend_words py_contains py_getitem]. rewrite Hd. cbn [rbind py_iter].
    rewrite (word_texts_ok ws l Hl). cbn [rbind]. rewrite IH.
    cbn [List.concat]. rewrite map_app, app_assoc. reflexivity.
Qed.

(** X15: from a body of the shape the service sends, the tracker reads
    the text, the ['is_final'] of the body (False when absent) and the
    texts of the words of all utterances, in order. *)
Theorem read_message_words (d rd : list (string * pyval)) (text : pyval)
        (us : list pyval) (wss : list (list string)) :
  dict_lookup "result" d = Some (PDict rd) ->
  dict_lookup "text" rd = Some text ->
  dict_lookup "utterances" rd = Some (PList us) ->
  Forall2 has_words wss us ->
  read_message (PDict d)
  = Ok (Some (text,
              match dict_lookup "is_final" d with
              | Some v => v
              | None => PBool false
              end,
              map PStr (List.concat wss))).
Proof.
  intros Hres Htext Hutt Hwords.
  unfold read_message. cbn [py_contains py_getitem py_get]. rewrite Hres.
  cbn [rbind py_get py_contains py_getitem]. rewrite Htext, Hutt.
  cbn [rbind py_iter]. rewrite (extend_words_ok wss us Hwords []).
  reflexivity.
Qed.

(** X16: the tracker reads the payload and the payload sequence of a
    decoded response and nothing else: the terminal flag of the frame,
    the echoed sequence, the error code and the declared size have no
    effect on the result or on the client. *)
Theorem feed_reads_payload_only (r1 r2 : response) (c : AsrWsClient) :
  payload_msg r1 = payload_msg r2 ->
  payload_sequence r1 = payload_sequence r2 ->
  feed r1 c = feed r2 c.
Proof.
  intros Hmsg Hseq. unfold feed, track, current_sequence_of.
  rewrite Hmsg, Hseq. reflexivity.
Qed.

(** X17: a response with a text and a sequence number above
    [last_sequence] but no new word is accepted without its text: the
    call returns an empty [partial_text] and, as [full_text], the text
    accumulated before, while [last_sequence] and [last_text] move on. *)
Theorem feed_no_new_words (result : response) (c : AsrWsClient) (msg : pyval)
        (current_text is_final : pyval) (current_words : list pyval) :
  payload_msg result = Some msg ->
  read_message msg = Ok (Some (current_text, is_final, current_words)) ->
  py_truthy current_text = true ->
  _last_sequence c < current_sequence_of result ->
  new_words_of current_words (_last_words c) = [] ->
  feed result c
  = (mkChunkResult None EmptyString is_final (_accumulated_text c)
       (current_sequence_of result),
     accepted current_text (current_sequence_of result) c).
Proof.
  intros Hmsg Hread Htruthy Hlt Hnew.
  unfold feed, track. rewrite Hmsg. unfold bind, lift. rewrite Hread.
  unfold update, bind, get_self, lift. cbn [self]. rewrite Htruthy.
  destruct (Z.gtb_spec (current_sequence_of result) (_last_sequence c));
    [|lia].
  cbn [andb]. rewrite Hnew. reflexivity.
Qed.

(** X18: a body whose ['result'] has no ['utterances'] has no words, so
    it never produces a [partial_text] and never changes the accumulated
    text or the word list, whatever its text. *)
Theorem feed_without_utterances (result : response) (c : AsrWsClient)
        (d rd : list (string * pyval)) :
  payload_msg result = Some (PDict d) ->
  dict_lookup "result" d = Some (PDict rd) ->
  dict_lookup "utterances" rd = None ->
  partial_text (fst (feed result c)) = EmptyString /\
  error (fst (feed result c)) = None /\
  _accumulated_text (snd (feed result c)) = _accumulated_text c /\
  _last_words (snd (feed result c)) = _last_words c.
Proof.
  intros Hmsg Hres Hutt.
  assert (Hread : read_message (PDict d)
                  = Ok (Some (match dict_lookup "text" rd with
                              | Some x => x
                              | None => PStr EmptyString
                              end,
                              match dict_lookup "is_final" d with
                              | Some v => v
                              | None => PBool false
                              end, []))).
  { unfold read_message. cbn [py_contains py_getitem py_get]. rewrite Hres.
    cbn [rbind py_get py_contains]. rewrite Hutt. reflexivity. }
  unfold feed, track. rewrite Hmsg. unfold bind, lift. rewrite Hread.
  unfold update, bind, get_self, lift. cbn [self].
  destruct (py_truthy _ && (current_sequence_of result >? _last_sequence c));
    cbn; repeat split.
Qed.

Lemma py_eq_str (v : pyval) (s : string) :
  py_eq v (PStr s) = true -> v = PStr s.
Proof.
  destruct v; cbn; try discriminate.
  intros H. apply String.eqb_eq in H. subst. reflexivity.
Qed.

Lemma str_join_strings (l : list pyval) (s : string) :
  str_join l = Ok s -> Forall is_str l.
Proof.
  revert s. induction l as [|v l IH]; intros s H; [constructor|].
  destruct v; try discriminate H. cbn [str_join] in H.
  destruct (str_join l) as [t|e] eqn:Ht; [|discriminate].
  constructor; [eexists; reflexivity | eapply IH; reflexivity].
Qed.

(** A word list whose new words are strings, over a word list of
    strings, is a list of strings. *)
Lemma accepted_words_strings (current_words last_words : list pyval) :
  Forall is_str last_words ->
  Forall is_str (new_words_of current_words last_words) ->
  Forall is_str current_words.
Proof.
  intros Hlast Hnew. apply Forall_forall. intros w Hw.
  destruct (py_in_list w last_words) eqn:Hin.
  - unfold py_in_list in Hin. apply existsb_exists in Hin as (y & Hy & Heq).
    rewrite Forall_forall in Hlast. destruct (Hlast y Hy) as (s & ->).
    apply py_eq_str in Heq. exists s. exact Heq.
  - rewrite Forall_forall in Hnew. apply Hnew.
    apply filter_In. split; [exact Hw|]. rewrite Hin. reflexivity.
Qed.

Lemma feed_last_words_strings (result : response) (c : AsrWsClient) :
  Forall is_str (_last_words c) ->
  Forall is_str (_last_words (snd (feed result c))).
Proof.
  intros Hc.
  destruct (feed_spec result c)
    as [(-> & _) | (msg & text & fin & cw & _ & _ & _ & _ & [(_ & ->) | (_ & s & Hjoin & ->)])];
    try exact Hc.
  cbn. eapply accepted_words_strings; [exact Hc|].
  eapply str_join_strings. exact Hjoin.
Qed.

(** X19: the word list a client keeps between calls holds strings only,
    whatever responses it was fed since it was created: a response with
    a new word that is not a string is refused before anything is
    stored. *)
Theorem feed_all_last_words_strings (kwargs : config)
        (results : list response) :
  Forall is_str
         (_last_words (snd (feed_all results (AsrWsClient_init kwargs)))).
Proof.
  assert (H : forall rs c, Forall is_str (_last_words c) ->
                           Forall is_str (_last_words (snd (feed_all rs c)))).
  { induction rs as [|r rs IH]; intros c Hc; [exact Hc|].
    cbn [feed_all]. pose proof (feed_last_words_strings r c Hc) as H1.
    destruct (feed r c) as [o c']. specialize (IH c' H1).
    destruct (feed_all rs c') as [os c'']. exact IH. }
  apply H. constructor.
Qed.

(** ** More on the live path *)

Lemma extend_frame_ok (header : bytes) (sq : Z) (payload : bytes) :
  - 2 ^ 31 <= sq < 2 ^ 31 ->
  Z.of_nat (List.length payload) < 2 ^ 32 ->
  exists frame, extend_frame header sq payload = Ok frame.
Proof.
  intros Hsq Hlen. unfold extend_frame, generate_before_payload.
  destruct (from_bytes_signed_to_bytes4_signed sq Hsq) as (b & -> & _).
  cbn [rbind]. unfold to_bytes4.
  destruct (Z.ltb_spec (Z.of_nat (List.length payload)) 0); [lia|].
  destruct (Z.ltb_spec (Z.of_nat (List.length payload)) (2 ^ 32)); [|lia].
  eexists. reflexivity.
Qed.

Section MoreLiveProperties.
Context {E : Externals}.

(** The tracker leaves the socket, the counter and the frames alone. *)
Lemma track_connection (result : response) (m : machine) :
  sent (snd (track result m)) = sent m /\
  _sequence (self (snd (track result m))) = _sequence (self m) /\
  _ws (self (snd (track result m))) = _ws (self m).
Proof.
  pose proof (track_feed result m) as Hfeed.
  assert (Hc : tracker_free (snd (feed result (self m))) (self m)).
  { destruct (feed_spec result (self m))
      as [(-> & _) | (msg & text & fin & cw & _ & _ & _ & _ & [(_ & ->) | (_ & s & _ & ->)])];
      split; reflexivity. }
  destruct Hc as (Hs & Hw).
  destruct (track result m) as [[[pt fin]|e] m'];
    cbn in Hfeed; injection Hfeed as _ ->; cbn [snd self sent];
    repeat split; assumption.
Qed.

(** X20: on a client that has its socket and its counter at [n], a call
    of [process_chunk] connects to nothing and sends exactly one frame,
    whatever the socket answers: the audio frame numbered [n + 1], with
    the flags POS_SEQUENCE, whose payload decompresses to the audio
    given. The counter is [n + 1] afterwards. *)
Theorem process_chunk_open_session (io : call_io) (audio_bytes : bytes)
        (m : machine) (n : Z) (w : websocket) :
  _sequence (self m) = Some n ->
  _ws (self m) = Some w ->
  - 2 ^ 31 <= n + 1 < 2 ^ 31 ->
  Z.of_nat (List.length (gzip_compress audio_bytes)) < 2 ^ 32 ->
  exists frame,
    sent (snd (process_chunk io audio_bytes m)) = sent m ++ [frame] /\
    frame_message_type frame = AUDIO_ONLY_REQUEST /\
    frame_flags frame = POS_SEQUENCE /\
    frame_sequence frame = n + 1 /\
    gzip_decompress (frame_payload frame) = Ok audio_bytes /\
    _sequence (self (snd (process_chunk io audio_bytes m))) = Some (n + 1) /\
    _ws (self (snd (process_chunk io audio_bytes m))) = Some w.
Proof.
  intros Hseq Hws Hrange Hlen.
  destruct (extend_frame_ok [17; 33; 17; 0] (n + 1)
              (gzip_compress audio_bytes) Hrange Hlen) as (frame & Hframe).
  pose proof (extend_frame_header _ _ _ _ _ _ _ Hframe) as (Hb1 & Hsq).
  pose proof (extend_frame_payload _ _ _ _ _ _ _ Hframe) as Hp.
  exists frame.
  set (P := fun m' : machine =>
              sent m' = sent m ++ [frame] /\
              _sequence (self m') = Some (n + 1) /\
              _ws (self m') = Some w).
  assert (Hwp : wp (process_chunk_body io audio_bytes)
                   (fun _ m' => P m') (fun _ m' => P m') m).
  { unfold process_chunk_body. apply wp_bind.
    unfold connect_and_init. wp_step. wp_step.
    rewrite Hseq, Hws. cbn [is_none orb]. wp_step.
    apply wp_bind. unfold send_audio. cbv zeta.
    change (generate_header AUDIO_ONLY_REQUEST POS_SEQUENCE JSON GZIP 0)
      with (Ok [17; 33; 17; 0]).
    assert (Hsame : forall b1 b2 : bool,
               (if b1 then if b2 then int16_tobytes audio_bytes
                                else audio_bytes
                else audio_bytes) = audio_bytes)
      by (intros [] []; reflexivity).
    apply wp_bind, wp_get_sequence. rewrite Hseq. cbv beta.
    wp_step. wp_step. wp_step. wp_step. rewrite Hsame.
    wp_step. wp_step.
    apply wp_bind, wp_get_sequence. cbn [self _sequence set_sequence].
    cbv beta. apply wp_bind, wp_lift. rewrite Hframe. cbv beta.
    assert (HP : P (mkMachine (set_sequence (n + 1) (self m))
                      (sent m ++ [frame])))
      by (unfold P; cbn; rewrite Hws; repeat split).
    assert (Htrack : forall result m1, P m1 ->
               wp (track result) (fun _ m' => P m') (fun _ m' => P m') m1).
    { intros result m1 (H1 & H2 & H3). unfold wp.
      destruct (track_connection result m1) as (T1 & T2 & T3).
      destruct (track result m1) as [[a|e] m2]; cbn [snd] in *;
        unfold P; rewrite T1, T2, T3; repeat split; assumption. }
    wp_steps; first [ apply Htrack; exact HP | exact HP ]. }
  unfold process_chunk, process_chunk_result. unfold wp in Hwp.
  destruct (process_chunk_body io audio_bytes m) as [[[pt fin]|e] m'];
    cbn [snd]; destruct Hwp as (H1 & H2 & H3);
    unfold frame_message_type, frame_flags, frame_payload in *;
    rewrite Hb1, Hp; repeat split; try assumption;
    apply gzip_decompress_compress.
Qed.

(** X21: while the client has no socket, a call whose connection fails
    sends nothing and returns the error, prefixed, in its result; the
    client still has no socket afterwards, so the next call connects
    again. *)
Theorem process_chunk_connect_failure (io : call_io) (audio_bytes : bytes)
        (m : machine) (e : exn) :
  _ws (self m) = None ->
  io_connect io = Raise e ->
  error (fst (process_chunk io audio_bytes m))
  = Some ("建立ASR连接失败: " ++ exn_str e)%string /\
  partial_text (fst (process_chunk io audio_bytes m)) = EmptyString /\
  sent (snd (process_chunk io audio_bytes m)) = sent m /\
  _ws (self (snd (process_chunk io audio_bytes m))) = None.
Proof.
  intros Hws Hconn.
  unfold process_chunk, process_chunk_result, process_chunk_body,
    connect_and_init, bind, get_self, modify_self, try_except, lift, raise.
  rewrite Hws, orb_true_r. cbn [self sent]. rewrite Hconn.
  cbn. rewrite Hws. repeat split.
Qed.

(** X22: while the client has no socket, a call whose initial request
    is answered by a dict whose ['code'] is not the success code (or is
    absent) fails with the message of the answer: the initial request is
    the only frame sent, no audio goes out. The socket and the counter
    stay, so the next call sends audio without a new initial request. *)
Theorem process_chunk_init_rejected (io : call_io) (audio_bytes : bytes)
        (m : machine) (ws : websocket) (u : unit) (res : ws_message)
        (r : response) (d : list (string * pyval)) :
  _ws (self m) = None ->
  io_connect io = Ok ws ->
  Z.of_nat (List.length
              (gzip_compress
                 (utf8_encode
                    (json_dumps
                       (construct_request (self m) (io_uuid4 io))))))
  < 2 ^ 32 ->
  io_init_send io = Ok u ->
  io_init_recv io = Ok res ->
  parse_message res = Ok r ->
  payload_msg r = Some (PDict d) ->
  py_eq (match dict_lookup "code" d with Some c => c | None => PNone end)
        (PInt (success_code (self m))) = false ->
  exists first,
    error (fst (process_chunk io audio_bytes m))
    = Some ("建立ASR连接失败: "
            ++ ("ASR初始化失败: "
                ++ py_str (match dict_lookup "message" d with
                           | Some v => v
                           | None => PStr "未知错误"
                           end)))%string /\
    sent (snd (process_chunk io audio_bytes m)) = sent m ++ [first] /\
    frame_message_type first = FULL_CLIENT_REQUEST /\
    frame_sequence first = 1 /\
    _ws (self (snd (process_chunk io audio_bytes m))) = Some ws /\
    _sequence (self (snd (process_chunk io audio_bytes m))) = Some 1.
Proof.
  intros Hws Hconn Hlen Hsend Hrecv Hparse Hmsg Hcode.
  destruct (extend_frame_ok [17; 17; 17; 0] 1 _ ltac:(lia) Hlen)
    as (first & Hfirst).
  pose proof (extend_frame_header _ _ _ _ _ _ _ Hfirst) as (Hb1 & Hsq).
  exists first.
  unfold process_chunk, process_chunk_result, process_chunk_body,
    connect_and_init, bind, get_self, modify_self, try_except, lift, raise,
    ws_send, get_sequence.
  change (generate_header FULL_CLIENT_REQUEST POS_SEQUENCE JSON GZIP 0)
    with (Ok [17; 17; 17; 0]).
  rewrite Hws, orb_true_r. cbn [self sent]. rewrite Hconn.
  cbn [self sent _sequence set_ws set_reqid set_is_first_chunk set_sequence
       cfg success_code].
  change (construct_request _ (io_uuid4 io))
    with (construct_request (self m) (io_uuid4 io)).
  rewrite Hfirst, Hsend. cbn [self sent]. rewrite Hrecv, Hparse, Hmsg.
  cbn [py_get]. rewrite Hcode. cbn.
  unfold frame_message_type. rewrite Hb1. repeat split. exact Hsq.
Qed.

End MoreLiveProperties.

(** ** The socket service *)

Section AssocProperties.
Context {A : Type}.

Lemma assoc_get_del_same (k : string) (d : list (string * A)) :
  assoc_get k (assoc_del k d) = None.
Proof.
  induction d as [|[k' v] d IH]; [reflexivity|].
  unfold assoc_del in *. cbn [filter fst].
  destruct (String.eqb k k') eqn:Hk; cbn [negb]; [exact IH|].
  cbn [assoc_get]. rewrite Hk. exact IH.
Qed.

Lemma assoc_del_keys (k : string) (d : list (string * A)) :
  map fst (assoc_del k d)
  = filter (fun k' => negb (String.eqb k k')) (map fst d).
Proof.
  induction d as [|[k' v] d IH]; [reflexivity|].
  unfold assoc_del in *. cbn [filter map fst].
  destruct (String.eqb k k'); cbn [negb map fst]; rewrite IH; reflexivity.
Qed.

Lemma assoc_set_keys (k : string) (v : A) (d : list (string * A)) :
  map fst (assoc_set k v d)
  = match assoc_get k d with
    | Some _ => map fst d
    | None => map fst d ++ [k]
    end.
Proof.
  induction d as [|[k' v'] d IH]; [reflexivity|].
  cbn [assoc_set assoc_get]. destruct (String.eqb_spec k k') as [->|Hne].
  - reflexivity.
  - cbn [map fst]. rewrite IH. destruct (assoc_get k d); reflexivity.
Qed.

Lemma assoc_get_none_keys (k : string) (d : list (string * A)) :
  assoc_get k d = None -> ~ In k (map fst d).
Proof.
  induction d as [|[k' v] d IH]; intros Hget; [intros []|].
  cbn [assoc_get] in Hget. destruct (String.eqb_spec k k'); [discriminate|].
  cbn [map fst]. intros [Heq | Hin]; [congruence | exact (IH Hget Hin)].
Qed.

Lemma assoc_set_forall (P : string * A -> Prop) (k : string) (v : A)
      (d : list (string * A)) :
  P (k, v) -> Forall P d -> Forall P (assoc_set k v d).
Proof.
  intros Hv Hd. induction Hd as [|[k' v'] d Hx Hd IH];
    [constructor; [exact Hv | constructor]|].
  cbn [assoc_set]. destruct (String.eqb k k'); constructor; assumption.
Qed.

Lemma assoc_set_nodup (k : string) (v : A) (d : list (string * A)) :
  NoDup (map fst d) -> NoDup (map fst (assoc_set k v d)).
Proof.
  intros Hd. rewrite assoc_set_keys.
  destruct (assoc_get k d) eqn:Hget; [exact Hd|].
  apply NoDup_app; [exact Hd | constructor; [intros [] | constructor] |].
  intros x Hx [<- | []]. exact (assoc_get_none_keys k d Hget Hx).
Qed.

Lemma assoc_get_set_same (k : string) (v : A) (d : list (string * A)) :
  assoc_get k (assoc_set k v d) = Some v.
Proof.
  induction d as [|[k' v'] d IH]; cbn [assoc_set assoc_get].
  - rewrite String.eqb_refl. reflexivity.
  - destruct (String.eqb k k') eqn:Hk; cbn [assoc_get]; rewrite ?Hk.
    + rewrite String.eqb_refl. reflexivity.
    + exact IH.
Qed.

Lemma assoc_del_absent (k : string) (d : list (string * A)) :
  assoc_get k d = None -> assoc_del k d = d.
Proof.
  induction d as [|[k' v] d IH]; intros Hget; [reflexivity|].
  cbn [assoc_get] in Hget. unfold assoc_del in *. cbn [filter fst].
  destruct (String.eqb k k'); [discriminate|].
  cbn [negb]. rewrite IH by exact Hget. reflexivity.
Qed.

Lemma assoc_get_in (k : string) (v : A) (d : list (string * A)) :
  assoc_get k d = Some v -> In (k, v) d.
Proof.
  induction d as [|[k' v'] d IH]; intros Hget; [discriminate|].
  cbn [assoc_get] in Hget. destruct (String.eqb_spec k k') as [->|Hne].
  - injection Hget as ->. left. reflexivity.
  - right. exact (IH Hget).
Qed.

Lemma assoc_set_set (k : string) (v1 v2 : A) (d : list (string * A)) :
  assoc_set k v2 (assoc_set k v1 d) = assoc_set k v2 d.
Proof.
  induction d as [|[k' v'] d IH]; cbn [assoc_set].
  - rewrite String.eqb_refl. reflexivity.
  - destruct (String.eqb k k') eqn:Hk; cbn [assoc_set].
    + rewrite String.eqb_refl. reflexivity.
    + rewrite Hk, IH. reflexivity.
Qed.

Lemma nodup_keys_value (k : string) (v v' : A) (d : list (string * A)) :
  NoDup (map fst d) -> In (k, v) d -> In (k, v') d -> v = v'.
Proof.
  induction d as [|[k0 v0] d IH]; intros Hnd H1 H2; [contradiction|].
  cbn [map fst] in Hnd. inversion Hnd as [|? ? Hnotin Hnd']; subst.
  destruct H1 as [E1 | H1], H2 as [E2 | H2].
  - congruence.
  - injection E1 as -> ->. exfalso. apply Hnotin.
    apply (in_map fst) in H2. exact H2.
  - injection E2 as -> ->. exfalso. apply Hnotin.
    apply (in_map fst) in H1. exact H1.
  - exact (IH Hnd' H1 H2).
Qed.

Lemma assoc_del_forall (P : string * A -> Prop) (k : string)
      (d : list (string * A)) :
  Forall P d -> Forall P (assoc_del k d).
Proof.
  intros Hd. apply Forall_forall. intros x Hx.
  apply filter_In in Hx as (Hx & _).
  rewrite Forall_forall in Hd. exact (Hd x Hx).
Qed.

Lemma assoc_del_nodup (k : string) (d : list (string * A)) :
  NoDup (map fst d) -> NoDup (map fst (assoc_del k d)).
Proof. intros Hd. rewrite assoc_del_keys. apply NoDup_filter. exact Hd. Qed.

(** Deleting the keys [ks] one after the other keeps the entries whose
    key is not among them. *)
Lemma fold_assoc_del (ks : list string) (d : list (string * A)) :
  fold_left (fun d k => assoc_del k d) ks d
  = filter (fun kv => negb (existsb (fun k => String.eqb k (fst kv)) ks)) d.
Proof.
  revert d. induction ks as [|k ks IH]; intros d.
  - cbn. induction d as [|x d IHd]; [reflexivity|].
    cbn. rewrite <- IHd. reflexivity.
  - cbn [fold_left]. rewrite IH. unfold assoc_del.
    induction d as [|x d IHd]; [reflexivity|].
    cbn [filter existsb]. destruct (String.eqb k (fst x)); cbn [negb orb].
    + exact IHd.
    + cbn [filter]. destruct (negb (existsb _ ks)); rewrite IHd; reflexivity.
Qed.

End AssocProperties.

Section ServiceProperties.
Context {E : Externals}.

(** The events for a dict of [process_chunk]: the key [partial_text] is
    always there, so only the first branch is ever taken. *)
Lemma result_events_of_chunk (now : pyval) (k : string) (r : chunk_result) :
  result_events now k (result_dict r)
  = Ok (if String.eqb (partial_text r) EmptyString then []
        else [mkEvent "partial_result"
                (PDict [("partial_text", PStr (partial_text r));
                        ("full_text", full_text r);
                        ("sequence", PInt (sequence r));
                        ("is_final", is_final r);
                        ("timestamp", now);
                        ("session_id", PStr k)])
                (ToRoom k)]).
Proof.
  unfold result_events, partial_result_event, result_dict.
  destruct (error r); cbn; destruct (String.eqb (partial_text r) EmptyString);
    reflexivity.
Qed.

(** A result with an error has an empty [partial_text]. *)
Lemma process_chunk_error_partial (io : call_io) (audio_bytes : bytes)
      (m : machine) :
  error (fst (process_chunk io audio_bytes m)) <> None ->
  partial_text (fst (process_chunk io audio_bytes m)) = EmptyString.
Proof.
  unfold process_chunk, process_chunk_result.
  destruct (process_chunk_body io audio_bytes m) as [[[pt fin]|e] m'];
    cbn; [congruence | reflexivity].
Qed.

Lemma process_audio_data_run (io : call_io) (now : pyval)
      (audio_bytes : bytes) (k : string) (s : VoiceRecognitionService)
      (x : RecognitionSession) (client : machine) :
  assoc_get k (sessions s) = Some x ->
  asr_client x = Some client ->
  process_audio_data io now audio_bytes k s
  = let r := fst (process_chunk io audio_bytes client) in
    mkService
      (assoc_set k
         (set_asr_client (Some (snd (process_chunk io audio_bytes client))) x)
         (sessions s))
      (emitted s
       ++ (if String.eqb (partial_text r) EmptyString then []
           else [mkEvent "partial_result"
                   (PDict [("partial_text", PStr (partial_text r));
                           ("full_text", full_text r);
                           ("sequence", PInt (sequence r));
                           ("is_final", is_final r);
                           ("timestamp", now);
                           ("session_id", PStr k)])
                   (ToRoom k)])).
Proof.
  intros Hget Hclient. unfold process_audio_data. rewrite Hget, Hclient.
  destruct (process_chunk io audio_bytes client) as [r0 client'].
  rewrite result_events_of_chunk. reflexivity.
Qed.

(** X23: for a registered session with a client, [process_audio_data]
    emits one event, [partial_result], to the room of the session when
    the [partial_text] of the result is not empty, and nothing
    otherwise. A result that carries an error is never reported: its
    branch cannot be taken, because the dict of an error has the key
    [partial_text] too. *)
Theorem process_audio_data_events (io : call_io) (now : pyval)
        (audio_bytes : bytes) (k : string) (s : VoiceRecognitionService)
        (x : RecognitionSession) (client : machine) :
  assoc_get k (sessions s) = Some x ->
  asr_client x = Some client ->
  let r := fst (process_chunk io audio_bytes client) in
  emitted (process_audio_data io now audio_bytes k s)
  = emitted s
    ++ (if String.eqb (partial_text r) EmptyString then []
        else [mkEvent "partial_result"
                (PDict [("partial_text", PStr (partial_text r));
                        ("full_text", full_text r);
                        ("sequence", PInt (sequence r));
                        ("is_final", is_final r);
                        ("timestamp", now);
                        ("session_id", PStr k)])
                (ToRoom k)]) /\
  (error r <> None ->
   emitted (process_audio_data io now audio_bytes k s) = emitted s).
Proof.
  intros Hget Hclient r.
  assert (Hev : emitted (process_audio_data io now audio_bytes k s)
                = emitted s
                  ++ (if String.eqb (partial_text r) EmptyString then []
                      else [mkEvent "partial_result"
                              (PDict [("partial_text", PStr (partial_text r));
                                      ("full_text", full_text r);
                                      ("sequence", PInt (sequence r));
                                      ("is_final", is_final r);
                                      ("timestamp", now);
                                      ("session_id", PStr k)])
                              (ToRoom k)])).
  { rewrite (process_audio_data_run io now audio_bytes k s x client
               Hget Hclient). reflexivity. }
  split; [exact Hev|].
  intros Herr. rewrite Hev.
  unfold r. rewrite (process_chunk_error_partial io audio_bytes client Herr).
  cbn. apply app_nil_r.
Qed.

Lemma cleanup_session_sessions (io : call_io) (k : string)
      (s : VoiceRecognitionService) :
  sessions (cleanup_session io k s) = assoc_del k (sessions s) /\
  emitted (cleanup_session io k s) = emitted s.
Proof.
  unfold cleanup_session.
  destruct (assoc_get k (sessions s)) eqn:Hget; [split; reflexivity|].
  split; [|reflexivity]. symmetry. apply assoc_del_absent. exact Hget.
Qed.

Lemma cleanup_sessions_fold (io_of : string -> call_io) (ks : list string)
      (s : VoiceRecognitionService) :
  sessions (fold_left (fun s k => cleanup_session (io_of k) k s) ks s)
  = fold_left (fun d k => assoc_del k d) ks (sessions s) /\
  emitted (fold_left (fun s k => cleanup_session (io_of k) k s) ks s)
  = emitted s.
Proof.
  revert s. induction ks as [|k ks IH]; intros s; [split; reflexivity|].
  cbn [fold_left].
  destruct (cleanup_session_sessions (io_of k) k s) as (Hs & He).
  destruct (IH (cleanup_session (io_of k) k s)) as (IHs & IHe).
  rewrite IHs, IHe, Hs, He. split; reflexivity.
Qed.

(** X24: when a socket disconnects, [cleanup_client_sessions] removes
    from the registry exactly the sessions of that socket: the sessions
    of the other sockets stay, in their order and with their clients,
    and no event is emitted. *)
Theorem cleanup_client_sessions_registry (io_of : string -> call_io)
        (sid0 : string) (s : VoiceRecognitionService) :
  NoDup (map fst (sessions s)) ->
  sessions (cleanup_client_sessions io_of sid0 s)
  = filter (fun kv => negb (String.eqb (sid (snd kv)) sid0)) (sessions s) /\
  emitted (cleanup_client_sessions io_of sid0 s) = emitted s.
Proof.
  intros Hnd. unfold cleanup_client_sessions.
  destruct (cleanup_sessions_fold io_of
              (map fst (filter (fun kv => String.eqb (sid (snd kv)) sid0)
                               (sessions s))) s) as (Hs & He).
  split; [|exact He]. rewrite Hs, fold_assoc_del.
  apply filter_ext_in. intros [k x] Hin. cbn [fst snd]. f_equal.
  destruct (String.eqb (sid x) sid0) eqn:Hsid.
  - apply existsb_exists. exists k. split; [|apply String.eqb_refl].
    apply (in_map fst (filter _ (sessions s)) (k, x)).
    apply filter_In. split; [exact Hin | exact Hsid].
  - destruct (existsb _ _) eqn:Hex; [|reflexivity].
    apply existsb_exists in Hex as (k' & Hk' & Heq).
    apply String.eqb_eq in Heq. subst k'.
    apply in_map_iff in Hk' as ([k1 x1] & Hk1 & Hin1). cbn in Hk1. subst k1.
    apply filter_In in Hin1 as (Hin1 & Hsid1). cbn in Hsid1.
    rewrite (nodup_keys_value k x x1 (sessions s) Hnd Hin Hin1) in Hsid.
    congruence.
Qed.

(** X25: an [audio_chunk] for a session id that is not registered is
    answered with one [error] event that names the id; the registry is
    not touched and no client is called. *)
Theorem handle_audio_chunk_unknown_session
        (b64decode : pyval -> result bytes) (io : call_io)
        (now_result now : pyval) (request_sid : string) (data : pyval)
        (s : VoiceRecognitionService) (k : string) :
  py_get data "session_id" PNone = Ok (PStr k) ->
  k <> EmptyString ->
  assoc_get k (sessions s) = None ->
  handle_audio_chunk b64decode io now_result now request_sid data s
  = emit (mkEvent "error"
            (PDict [("message", PStr "处理音频数据失败");
                    ("details",
                     PStr ("会话不存在: " ++ py_str (PStr k))%string)])
            (ToRequester request_sid)) s.
Proof.
  intros Hid Hk Hget. unfold handle_audio_chunk. rewrite Hid.
  cbn [rbind py_truthy find_session].
  rewrite (proj2 (String.eqb_neq k EmptyString) Hk). cbn [negb].
  rewrite Hget. reflexivity.
Qed.

(** X26: an [audio_chunk] with a registered session and audio that
    decodes is always answered with [audio_received], status success,
    after the [partial_result] when there is one: what happened between
    the client and the recognition service, an error included, does not
    change the answer. *)
Theorem handle_audio_chunk_received
        (b64decode : pyval -> result bytes) (io : call_io)
        (now_result now : pyval) (request_sid : string) (data : pyval)
        (s : VoiceRecognitionService)
        (k : string) (x : RecognitionSession) (client : machine)
        (audio_data : pyval) (audio_bytes : bytes) :
  py_get data "session_id" PNone = Ok (PStr k) ->
  k <> EmptyString ->
  assoc_get k (sessions s) = Some x ->
  is_active x = true ->
  asr_client x = Some client ->
  py_get data "audio_data" PNone = Ok audio_data ->
  py_truthy audio_data = true ->
  b64decode audio_data = Ok audio_bytes ->
  let r := fst (process_chunk io audio_bytes client) in
  emitted (handle_audio_chunk b64decode io now_result now request_sid data s)
  = emitted s
    ++ (if String.eqb (partial_text r) EmptyString then []
        else [mkEvent "partial_result"
                (PDict [("partial_text", PStr (partial_text r));
                        ("full_text", full_text r);
                        ("sequence", PInt (sequence r));
                        ("is_final", is_final r);
                        ("timestamp", now_result);
                        ("session_id", PStr k)])
                (ToRoom k)])
    ++ [mkEvent "audio_received"
          (PDict [("status", PStr "success"); ("timestamp", now)])
          (ToRequester request_sid)].
Proof.
  intros Hid Hk Hget Hactive Hclient Haudio Htruthy Hdecode r.
  unfold handle_audio_chunk. rewrite Hid.
  cbn [rbind py_truthy find_session].
  rewrite (proj2 (String.eqb_neq k EmptyString) Hk). cbn [negb].
  rewrite Hget. cbn [rbind]. rewrite Hactive. cbn [negb].
  rewrite Haudio. cbn [rbind]. rewrite Htruthy. cbn [negb].
  rewrite Hdecode. cbn [rbind]. unfold emit. cbn [emitted].
  rewrite (process_audio_data_run io now_result audio_bytes k s x client
             Hget Hclient).
  cbn [emitted]. rewrite <- app_assoc. reflexivity.
Qed.

(** X27: [start_recognition] always registers the new session, active
    and with a client, and answers [session_created] first, whatever
    happened when the client connected; after a connection that failed
    the registered client has no socket, and nothing tells the
    requester. *)
Theorem handle_start_recognition_registers (new_id : string) (io : call_io)
        (now : pyval) (request_sid : string) (entered : result unit)
        (s : VoiceRecognitionService) :
  let s' := handle_start_recognition new_id io now request_sid entered s in
  assoc_get new_id (sessions s')
  = Some (mkSession new_id request_sid (Some (create_asr_client io)) true) /\
  (exists tail,
      emitted s'
      = emitted s
        ++ mkEvent "session_created"
             (PDict [("session_id", PStr new_id); ("timestamp", now)])
             (ToRequester request_sid) :: tail /\
      (forall u, entered = Ok u -> tail = [])) /\
  (forall e, io_connect io = Raise e ->
             _ws (self (create_asr_client io)) = None /\
             sent (create_asr_client io) = []).
Proof.
  intros s'. subst s'. unfold handle_start_recognition.
  split; [|split].
  - destruct entered; unfold emit; cbn [sessions set_asr_client];
      apply assoc_get_set_same.
  - destruct entered as [u|e]; unfold emit; cbn [emitted sessions].
    + exists []. split; [reflexivity|]. reflexivity.
    + eexists. split; [rewrite <- app_assoc; reflexivity|].
      intros u Hu. discriminate.
  - intros e Hconn. unfold create_asr_client.
    destruct (process_chunk_connect_failure io []
                (mkMachine (AsrWsClient_init service_config) []) e
                eq_refl Hconn) as (_ & _ & Hsent & Hws).
    split; [exact Hws | exact Hsent].
Qed.

(** X28: [end_recognition] for a registered session takes it out of the
    registry and answers [session_ended]; an [audio_chunk] that arrives
    afterwards for that session is answered with the error of an unknown
    session, and no client is called. *)
Theorem audio_after_end_recognition (io : call_io) (now : pyval)
        (request_sid : string) (d : list (string * pyval))
        (s : VoiceRecognitionService) (k : string) (x : RecognitionSession)
        (b64decode : pyval -> result bytes) (io2 : call_io)
        (now_result2 now2 : pyval) (request_sid2 : string) (data2 : pyval) :
  dict_lookup "session_id" d = Some (PStr k) ->
  k <> EmptyString ->
  assoc_get k (sessions s) = Some x ->
  py_get data2 "session_id" PNone = Ok (PStr k) ->
  exists s1,
    handle_end_recognition io now request_sid (PDict d) s = Ok s1 /\
    sessions s1 = assoc_del k (sessions s) /\
    emitted s1
    = emitted s
      ++ [mkEvent "session_ended"
            (PDict [("session_id", PStr k); ("timestamp", now)])
            (ToRequester request_sid)] /\
    handle_audio_chunk b64decode io2 now_result2 now2 request_sid2 data2 s1
    = emit (mkEvent "error"
              (PDict [("message", PStr "处理音频数据失败");
                      ("details",
                       PStr ("会话不存在: " ++ py_str (PStr k))%string)])
              (ToRequester request_sid2)) s1.
Proof.
  intros Hid Hk Hget Hid2.
  unfold handle_end_recognition. cbn [py_get]. rewrite Hid.
  cbn [rbind find_session]. rewrite Hget.
  destruct (cleanup_session_sessions io k s) as (Hs & He).
  eexists. split; [reflexivity|]. unfold emit. cbn [sessions emitted].
  split; [exact Hs|]. split; [rewrite He; reflexivity|].
  unfold handle_audio_chunk. rewrite Hid2.
  cbn [rbind py_truthy find_session].
  rewrite (proj2 (String.eqb_neq k EmptyString) Hk). cbn [negb sessions].
  rewrite Hs, assoc_get_del_same. reflexivity.
Qed.

End ServiceProperties.
